(** * Kebapp presale front end: the investment form of [TokenSaleDetails]

    A shallow embedding of the component's logic: the amount validator
    [validateAmount], the payload encoder [createInstructionData] and the
    submission routine [handleInvest], together with the parts of the
    JavaScript run time they rely on (binary64 numbers, [Number(string)],
    [Math.floor], [BigInt], [DataView.setBigUint64], [Uint8Array.set]). *)

From Stdlib Require Import ZArith String Ascii List Bool Lia.
From Stdlib Require Import SpecFloat.
From Stdlib Require Import Sorted.
Import ListNotations.
Open Scope Z_scope.

(* ================================================================== *)
(** * JavaScript run time                                              *)
(* ================================================================== *)

Module JS.

(** ** Numbers: IEEE 754 binary64, as specified by [SpecFloat] *)

Definition prec : Z := 53.
Definition emax : Z := 1024.

Definition number := spec_float.

Definition NaN : number := S754_nan.
Definition Infinity : number := S754_infinity false.

Definition isNaN (x : number) : bool :=
  match x with S754_nan => true | _ => false end.

Definition mul (x y : number) : number := SFmul prec emax x y.
Definition div (x y : number) : number := SFdiv prec emax x y.
Definition ltb (x y : number) : bool := SFltb x y.
Definition leb (x y : number) : bool := SFleb x y.
(** [x > y] is evaluated as [y < x]. *)
Definition gtb (x y : number) : bool := SFltb y x.

(** The Number value for the mathematical value [m * 10^e], [0 <= m]:
    round to nearest, ties to even.  A zero keeps the sign it is given. *)
Definition number_of_decimal (neg : bool) (m e : Z) : number :=
  if m =? 0 then S754_zero neg
  else if 0 <=? e then
    binary_normalize prec emax (cond_Zopp neg (m * 10 ^ e)) 0 neg
  else
    let '(q, e', l) := SFdiv_core_binary prec emax m 0 (10 ^ (- e)) 0 in
    binary_round_aux prec emax neg q e' l.

(** Every binary64 value has a mantissa of at most 53 bits. *)
Definition mantissa_bounded (x : number) : Prop :=
  match x with
  | S754_finite _ m _ => Zpos m < 2 ^ 53
  | _ => True
  end.

(** The integer [floor x] of a finite number; [Z.shiftl] by a negative
    amount is the division by a power of two rounded towards minus
    infinity. *)
Definition Zfloor (x : number) : Z :=
  match x with
  | S754_finite s m e => Z.shiftl (cond_Zopp s (Zpos m)) e
  | _ => 0
  end.

(** [denotes x z]: the finite number [x] is the integer [z]. *)
Definition denotes (x : number) (z : Z) : Prop :=
  match x with
  | S754_zero _ => z = 0
  | S754_finite s m e =>
      if 0 <=? e then z = cond_Zopp s (Zpos m) * 2 ^ e
      else cond_Zopp s (Zpos m) = z * 2 ^ (- e)
  | _ => False
  end.

(** [Math.floor]: NaN, the infinities, the zeros and the numbers without a
    fractional part are returned as they are. *)
Definition Math_floor (x : number) : number :=
  match x with
  | S754_finite s m e =>
      if 0 <=? e then x else binary_normalize prec emax (Zfloor x) 0 false
  | _ => x
  end.

(** ** Strings: sequences of UTF-16 code units *)

Definition code_unit := N.
Definition js_string := list code_unit.

Definition js (s : string) : js_string :=
  map N_of_ascii (list_ascii_of_string s).

(** Messages are kept as the template literals that build them: literal
    text and interpolated numbers. *)
Inductive fragment :=
| Text (s : string)
| Interp (x : number).

Definition message := list fragment.

Definition msg (s : string) : message := [Text s].

(** ** Completions *)

Inductive exn :=
| SendTransactionError (m : message)
| Error (m : message)        (* an Error of any other class *)
| NotAnError.                (* a thrown value that is no Error *)

Inductive completion (A : Type) :=
| Normal (a : A)
| Throw (e : exn).
Arguments Normal {A} a.
Arguments Throw {A} e.

(** ** [Number(value)] applied to a string: StringToNumber *)

(** StrWhiteSpaceChar: WhiteSpace and LineTerminator. *)
Definition is_StrWhiteSpaceChar (c : code_unit) : bool :=
  (((9 <=? c) && (c <=? 13))        (* TAB LF VT FF CR *)
   || (c =? 32)                     (* SP *)
   || (c =? 160)                    (* NBSP *)
   || (c =? 5760)                   (* U+1680 *)
   || ((8192 <=? c) && (c <=? 8202))  (* U+2000 .. U+200A *)
   || (c =? 8232) || (c =? 8233)    (* LS PS *)
   || (c =? 8239) || (c =? 8287)    (* U+202F U+205F *)
   || (c =? 12288)                  (* U+3000 *)
   || (c =? 65279))%N.              (* ZWNBSP *)

Fixpoint trimStart (s : js_string) : js_string :=
  match s with
  | c :: r => if is_StrWhiteSpaceChar c then trimStart r else s
  | [] => []
  end.

Definition trim (s : js_string) : js_string :=
  rev (trimStart (rev (trimStart s))).

(** The value of a digit in the given radix, if it is one. *)
Definition digit_of (radix : N) (c : code_unit) : option Z :=
  let v :=
    (if (48 <=? c) && (c <=? 57) then Some (c - 48)         (* 0-9 *)
     else if (97 <=? c) && (c <=? 122) then Some (c - 87)   (* a-z *)
     else if (65 <=? c) && (c <=? 90) then Some (c - 55)    (* A-Z *)
     else None)%N in
  match v with
  | Some d => if (d <? radix)%N then Some (Z.of_N d) else None
  | None => None
  end.

(** The longest prefix of digits, as their values, and what follows. *)
Fixpoint span_digits (radix : N) (s : js_string) : list Z * js_string :=
  match s with
  | c :: r =>
      match digit_of radix c with
      | Some d => let (ds, rest) := span_digits radix r in (d :: ds, rest)
      | None => ([], s)
      end
  | [] => ([], [])
  end.

Definition digits_value (radix : Z) (ds : list Z) : Z :=
  fold_left (fun acc d => radix * acc + d) ds 0.

(** NonDecimalIntegerLiteral after its prefix: one digit or more, and
    nothing else. *)
Definition parse_radix (radix : N) (s : js_string) : option Z :=
  match span_digits radix s with
  | (d :: ds, []) => Some (digits_value (Z.of_N radix) (d :: ds))
  | _ => None
  end.

(** Mathematical value of a StrUnsignedDecimalLiteral. *)
Inductive MV :=
| MV_Infinity
| MV_Decimal (m e : Z).      (* m * 10^e *)

Definition eqb_js_string (a b : js_string) : bool :=
  if list_eq_dec N.eq_dec a b then true else false.

(** ExponentPart_opt followed by the end of the literal: the exponent. *)
Definition parse_exponent (s : js_string) : option Z :=
  match s with
  | [] => Some 0
  | c :: r =>
      if ((c =? 101) || (c =? 69))%N then            (* e E *)
        let '(neg, r') :=
          match r with
          | 43%N :: t => (false, t)                   (* + *)
          | 45%N :: t => (true, t)                    (* - *)
          | _ => (false, r)
          end in
        match span_digits 10 r' with
        | (d :: ds, []) => Some (cond_Zopp neg (digits_value 10 (d :: ds)))
        | _ => None
        end
      else None
  end.

Definition parse_StrUnsignedDecimalLiteral (s : js_string) : option MV :=
  if eqb_js_string s (js "Infinity") then Some MV_Infinity
  else
    let (ip, r1) := span_digits 10 s in
    let (fp, r2) :=
      match r1 with
      | 46%N :: r => span_digits 10 r                 (* . *)
      | _ => ([], r1)
      end in
    match ip ++ fp with
    | [] => None
    | _ :: _ =>
        match parse_exponent r2 with
        | Some e => Some (MV_Decimal (digits_value 10 (ip ++ fp))
                                     (e - Z.of_nat (length fp)))
        | None => None
        end
    end.

Definition parse_StrDecimalLiteral (s : js_string) : number :=
  let '(neg, u) :=
    match s with
    | 43%N :: t => (false, t)
    | 45%N :: t => (true, t)
    | _ => (false, s)
    end in
  match parse_StrUnsignedDecimalLiteral u with
  | Some MV_Infinity => S754_infinity neg
  | Some (MV_Decimal m e) => number_of_decimal neg m e
  | None => NaN
  end.

Definition of_integer_literal (v : option Z) : number :=
  match v with
  | Some n => number_of_decimal false n 0
  | None => NaN
  end.

Definition StringToNumber (s : js_string) : number :=
  let t := trim s in
  match t with
  | [] => S754_zero false
  | 48%N :: p :: r =>
      if ((p =? 120) || (p =? 88))%N then of_integer_literal (parse_radix 16 r)
      else if ((p =? 111) || (p =? 79))%N then of_integer_literal (parse_radix 8 r)
      else if ((p =? 98) || (p =? 66))%N then of_integer_literal (parse_radix 2 r)
      else parse_StrDecimalLiteral t
  | _ => parse_StrDecimalLiteral t
  end.

Definition Number (value : js_string) : number := StringToNumber value.

(** ** BigInt and typed arrays *)

Definition RangeError_not_an_integer (x : number) : exn :=
  Error [Text "The number "; Interp x;
         Text " cannot be converted to a BigInt because it is not an integer"].

(** NumberToBigInt: the integer a number denotes, a RangeError if it
    denotes none. *)
Definition BigInt (x : number) : completion Z :=
  match x with
  | S754_zero _ => Normal 0
  | S754_finite s m e =>
      if 0 <=? e then Normal (Zfloor x)
      else if Zpos m mod 2 ^ (- e) =? 0 then Normal (Zfloor x)
      else Throw (RangeError_not_an_integer x)
  | _ => Throw (RangeError_not_an_integer x)
  end.

Definition Uint8Array := list Z.

Definition new_Uint8Array (n : nat) : Uint8Array := repeat 0 n.

(** [a[i] = v]: an index outside the array is ignored. *)
Fixpoint set_index (a : Uint8Array) (i : nat) (v : Z) : Uint8Array :=
  match a, i with
  | [], _ => []
  | _ :: r, O => v mod 256 :: r
  | x :: r, S k => x :: set_index r k v
  end.

Definition RangeError (s : string) : exn := Error (msg s).

(** Overwrite [a] from position [offset] on with [src]. *)
Definition splice (a : list Z) (offset : nat) (src : list Z) : list Z :=
  firstn offset a ++ src ++ skipn (offset + length src) a.

(** [a.set(src, offset)]. *)
Definition Uint8Array_set (a : Uint8Array) (src : list Z) (offset : nat)
  : completion Uint8Array :=
  if (offset + length src <=? length a)%nat then Normal (splice a offset src)
  else Throw (RangeError "offset is out of bounds").

Definition ToBigUint64 (v : Z) : Z := v mod 2 ^ 64.

Fixpoint le_bytes (n : nat) (v : Z) : list Z :=
  match n with
  | O => []
  | S k => v mod 256 :: le_bytes k (v / 256)
  end.

(** [view.setBigUint64(byteOffset, v, littleEndian)] on a view of the
    whole buffer. *)
Definition setBigUint64 (buffer : list Z) (byteOffset : nat) (v : Z)
    (littleEndian : bool) : completion (list Z) :=
  if (byteOffset + 8 <=? length buffer)%nat then
    let bytes := le_bytes 8 (ToBigUint64 v) in
    Normal (splice buffer byteOffset (if littleEndian then bytes else rev bytes))
  else Throw (RangeError "Offset is outside the bounds of the DataView").

(** Reading an unsigned integer back, least significant byte first. *)
Definition decode_le (bytes : list Z) : Z :=
  fold_right (fun b acc => b + 256 * acc) 0 bytes.

End JS.

(* ================================================================== *)
(** * The part of @solana/web3.js the component uses                   *)
(* ================================================================== *)

Module Solana.
Import JS.

Record PublicKey := { toBase58 : js_string }.

Record AccountMeta := {
  pubkey : PublicKey;
  isSigner : bool;
  isWritable : bool }.

Record TransactionInstruction := {
  keys : list AccountMeta;
  programId : PublicKey;
  data : Uint8Array }.

Record Transaction := {
  instructions : list TransactionInstruction;
  feePayer : option PublicKey;
  recentBlockhash : option js_string }.

(** What the wallet hands back: [serialize()] yields the wire bytes or
    throws. *)
Record SignedTransaction := { serialize : completion (list Z) }.

(** Modelled from the spec: [LAMPORTS_PER_SOL] is imported from
    @solana/web3.js, which is not part of the sources; the spec fixes the
    smallest unit at 1e-9 of the display unit, that is 1e9 units per coin. *)
Definition LAMPORTS_PER_SOL : number := number_of_decimal false 1000000000 0.

(** Modelled from the spec: [SystemProgram.programId] of @solana/web3.js,
    the fixed system-level reference of an instruction. *)
Definition SystemProgram_programId : PublicKey :=
  {| toBase58 := js "11111111111111111111111111111111" |}.

End Solana.

(* ================================================================== *)
(** * The component [TokenSaleDetails]                                 *)
(* ================================================================== *)

Module TokenSaleDetails.
Import JS Solana.

(** Program constants *)
Definition PROGRAM_ID : PublicKey :=
  {| toBase58 := js "581gc2hFXcg1V5Wx3MLeH557MgsVwqowC3P21oWjkELm" |}.
Definition ADMIN_WALLET : PublicKey :=
  {| toBase58 := js "2FcJbN2kgx3eB1JeJgoBKczpAsXxJzosq269Coidxfhd" |}.

(** Investment limits: the literals [0.00000001] and [5000]. *)
Definition MIN_INVESTMENT : number := number_of_decimal false 1 (-8).
Definition MAX_INVESTMENT : number := number_of_decimal false 5000 0.

(** ** Component state and collaborators *)

(** The three [useState] cells the handlers write. *)
Record State := {
  amount : js_string;
  error : message;
  isProcessing : bool }.

Inductive level := lvl_success | lvl_warning | lvl_error.

(** Calls made to the collaborators, in the order they are made. *)
Inductive event :=
| call_addNotification (l : level) (m : message)
| call_addDeposit (x : number)
| call_getConnection
| call_getBalance (pk : PublicKey) (answer : completion number)
| call_getLatestBlockhash (commitment : string)
| call_signTransaction (tx : Transaction)
| call_sendRawTransaction (raw : list Z) (skipPreflight : bool)
                          (preflightCommitment : string)
| call_confirmTransaction (signature blockhash : js_string)
                          (lastValidBlockHeight : number).

(** What the contexts provide to one render and how the wallet and the
    network client answer during one run of a handler. *)
Record Env := {
  walletAddress : option js_string;            (* useUser() *)
  isPresaleEnded : bool;                       (* usePresale() *)
  window_solana : bool;                        (* is window.solana there *)
  PublicKey_valid : js_string -> bool;         (* does new PublicKey accept *)
  getConnection : completion unit;
  getBalance : PublicKey -> completion number;
  getLatestBlockhash : completion (js_string * number);
  signTransaction : Transaction -> completion SignedTransaction;
  sendRawTransaction : list Z -> completion js_string;
  confirmTransaction : js_string -> completion unit }.

Record World := {
  state : State;
  log : list event }.

(** ** Computations that change the world and may throw *)

Definition M (A : Type) : Type := World -> completion A * World.

Definition ret {A} (a : A) : M A := fun w => (Normal a, w).

Definition bind {A B} (m : M A) (k : A -> M B) : M B :=
  fun w =>
    match m w with
    | (Normal a, w') => k a w'
    | (Throw e, w') => (Throw e, w')
    end.

Definition throw {A} (e : exn) : M A := fun w => (Throw e, w).

Definition lift {A} (c : completion A) : M A := fun w => (c, w).

Definition try_catch {A} (body : M A) (handler : exn -> M A) : M A :=
  fun w =>
    match body w with
    | (Throw e, w') => handler e w'
    | r => r
    end.

Definition try_finally {A} (body : M A) (cleanup : M unit) : M A :=
  fun w =>
    let (r, w') := body w in
    match cleanup w' with
    | (Normal _, w'') => (r, w'')
    | (Throw e, w'') => (Throw e, w'')
    end.

Definition emit (e : event) : M unit :=
  fun w => (Normal tt, {| state := state w; log := log w ++ [e] |}).

Definition modify (f : State -> State) : M unit :=
  fun w => (Normal tt, {| state := f (state w); log := log w |}).

Notation "x <- m ;; k" := (bind m (fun x => k))
  (at level 61, m at next level, right associativity).
Notation "m ;;; k" := (bind m (fun _ => k))
  (at level 61, right associativity).

(** The same sequencing for code that throws but touches nothing. *)
Definition bindC {A B} (c : completion A) (k : A -> completion B)
  : completion B :=
  match c with
  | Normal a => k a
  | Throw e => Throw e
  end.

Notation "x <-- c ; k" := (bindC c (fun x => k))
  (at level 61, c at next level, right associativity).

Definition setAmount (v : js_string) : M unit :=
  modify (fun s => {| amount := v; error := error s;
                      isProcessing := isProcessing s |}).
Definition setError (m : message) : M unit :=
  modify (fun s => {| amount := amount s; error := m;
                      isProcessing := isProcessing s |}).
Definition setIsProcessing (b : bool) : M unit :=
  modify (fun s => {| amount := amount s; error := error s;
                      isProcessing := b |}).

Definition addNotification (l : level) (m : message) : M unit :=
  emit (call_addNotification l m).
Definition addDeposit (x : number) : M unit :=
  emit (call_addDeposit x).

(** [new PublicKey(text)] *)
Definition new_PublicKey (env : Env) (text : js_string) : completion PublicKey :=
  if PublicKey_valid env text then Normal {| toBase58 := text |}
  else Throw (Error (msg "Invalid public key input")).

(** ** [createInstructionData] *)

Definition createInstructionData (lamports : number) : completion Uint8Array :=
  let data := new_Uint8Array 9 in
  let data := set_index data 0 0 in          (* InvestSol instruction index *)
  let buffer := repeat 0 8 in                (* new ArrayBuffer(8) *)
  v <-- BigInt lamports ;
  buffer <-- setBigUint64 buffer 0 v true ;  (* true for little-endian *)
  data <-- Uint8Array_set data buffer 1 ;
  Normal data.

(** ** [validateAmount] *)

Definition msg_presale_ended : message := msg "Presale has ended".
Definition msg_invalid_amount : message := msg "Please enter a valid amount".
Definition msg_minimum : message :=
  [Text "Minimum investment is "; Interp MIN_INVESTMENT; Text " SOL"].
Definition msg_maximum : message :=
  [Text "Maximum investment is "; Interp MAX_INVESTMENT; Text " SOL"].

Definition validateAmount (env : Env) (value : js_string) : M bool :=
  if isPresaleEnded env then
    setError msg_presale_ended ;;; ret false
  else
    let numAmount := Number value in
    if isNaN numAmount || leb numAmount (S754_zero false) then
      setError msg_invalid_amount ;;; ret false
    else if ltb numAmount MIN_INVESTMENT then
      setError msg_minimum ;;; ret false
    else if gtb numAmount MAX_INVESTMENT then
      setError msg_maximum ;;; ret false
    else
      setError [] ;;; ret true.

Definition handleAmountChange (env : Env) (value : js_string) : M unit :=
  setAmount value ;;;
  _ <- validateAmount env value ;;
  ret tt.

(** ** [handleInvest] *)

Definition msg_insufficient (lamports balance : number) : message :=
  [Text "Insufficient balance. Required: ";
   Interp (div lamports LAMPORTS_PER_SOL);
   Text " SOL, Available: ";
   Interp (div balance LAMPORTS_PER_SOL);
   Text " SOL"].

(** The [try] block.  [cl] is the state of the render the handler closes
    over, [wa] the connected wallet address. *)
Definition invest_body (env : Env) (cl : State) (wa : js_string) : M unit :=
  emit call_getConnection ;;;
  lift (getConnection env) ;;;
  if negb (window_solana env) then throw (Error (msg "Wallet not found"))
  else
    (* Convert amount to lamports *)
    let lamports := Math_floor (mul (Number (amount cl)) LAMPORTS_PER_SOL) in
    (* Check balance *)
    pk <- lift (new_PublicKey env wa) ;;
    emit (call_getBalance pk (getBalance env pk)) ;;;
    balance <- lift (getBalance env pk) ;;
    if ltb balance lamports then
      throw (Error (msg_insufficient lamports balance))
    else
      (* Create and send transaction *)
      payer <- lift (new_PublicKey env wa) ;;
      payload <- lift (createInstructionData lamports) ;;
      let instruction :=
        {| keys := [ {| pubkey := payer; isSigner := true; isWritable := true |};
                     {| pubkey := ADMIN_WALLET; isSigner := false;
                        isWritable := true |};
                     {| pubkey := SystemProgram_programId; isSigner := false;
                        isWritable := false |} ];
           programId := PROGRAM_ID;
           data := payload |} in
      emit (call_getLatestBlockhash "confirmed") ;;;
      latest <- lift (getLatestBlockhash env) ;;
      let '(blockhash, lastValidBlockHeight) := latest in
      fee_payer <- lift (new_PublicKey env wa) ;;
      let transaction :=
        {| instructions := [instruction];
           feePayer := Some fee_payer;
           recentBlockhash := Some blockhash |} in
      emit (call_signTransaction transaction) ;;;
      signed <- lift (signTransaction env transaction) ;;
      raw <- lift (serialize signed) ;;
      emit (call_sendRawTransaction raw false "confirmed") ;;;
      signature <- lift (sendRawTransaction env raw) ;;
      emit (call_confirmTransaction signature blockhash lastValidBlockHeight) ;;;
      lift (confirmTransaction env signature) ;;;
      addNotification lvl_success (msg "Investment successful!") ;;;
      addDeposit (Number (amount cl)) ;;;
      setAmount [].

(** The [catch] block. *)
Definition invest_catch (e : exn) : M unit :=
  match e with
  | SendTransactionError m =>
      addNotification lvl_error (Text "Transaction failed: " :: m)
  | Error m => addNotification lvl_error m
  | NotAnError => addNotification lvl_error (msg "Investment failed")
  end.

(** A wallet address that is missing or empty is falsy. *)
Definition connected (env : Env) : option js_string :=
  match walletAddress env with
  | Some (c :: r) => Some (c :: r)
  | _ => None
  end.

Definition handleInvest (env : Env) (cl : State) : M unit :=
  match connected env with
  | None => addNotification lvl_warning (msg "Please connect your wallet")
  | Some wa =>
      valid <- validateAmount env (amount cl) ;;
      if negb valid then addNotification lvl_error (error cl)
      else
        setIsProcessing true ;;;
        try_finally
          (try_catch (invest_body env cl wa) invest_catch)
          (setIsProcessing false)
  end.

(** One run of [handleInvest], started by a click in the render whose
    state is [st]: the world it leaves behind. *)
Definition run_handleInvest (env : Env) (st : State) : World :=
  snd (handleInvest env st {| state := st; log := [] |}).

(** ** Observations on a run *)

Definition is_signTransaction (e : event) : bool :=
  match e with call_signTransaction _ => true | _ => false end.

Definition is_success (e : event) : bool :=
  match e with call_addNotification lvl_success _ => true | _ => false end.

Definition succeeded (w : World) : bool := existsb is_success (log w).

(** The world [w] after [setError m]. *)
Definition with_error (m : message) (w : World) : World :=
  {| state := {| amount := amount (state w); error := m;
                 isProcessing := isProcessing (state w) |};
     log := log w |}.

(** The number of lamports [handleInvest] computes from the amount held
    by the render it was started in. *)
Definition lamports_of (st : State) : number :=
  Math_floor (mul (Number (amount st)) LAMPORTS_PER_SOL).

End TokenSaleDetails.

(* ================================================================== *)
(** * Scenarios                                                        *)
(* ================================================================== *)

Module Scenarios.
Import JS Solana TokenSaleDetails.

Definition investor : js_string :=
  js "7xKXtg2CW87d97TXJSDpbD5jBkheTqA83TZRuJosgAsU".

(** A connected wallet holding ten coins, an open presale and a network
    that answers every request. *)
Definition env_funded : Env :=
  {| walletAddress := Some investor;
     isPresaleEnded := false;
     window_solana := true;
     PublicKey_valid := fun _ => true;
     getConnection := Normal tt;
     getBalance := fun _ => Normal (number_of_decimal false 10000000000 0);
     getLatestBlockhash :=
       Normal (js "EkSnNWid2cvwEVnVx9aBqawnmiCNiDgp3gUdkDPTKN1N",
               number_of_decimal false 1000 0);
     signTransaction := fun _ => Normal {| serialize := Normal [1; 2; 3] |};
     sendRawTransaction := fun _ => Normal (js "5VERv8NMvzbJMEkV8xnrLkEaWRtSz9CosKDYjCJjBRnb");
     confirmTransaction := fun _ => Normal tt |}.

(** The same, with a wallet that holds one thousand lamports only. *)
Definition env_poor : Env :=
  {| walletAddress := Some investor;
     isPresaleEnded := false;
     window_solana := true;
     PublicKey_valid := fun _ => true;
     getConnection := Normal tt;
     getBalance := fun _ => Normal (number_of_decimal false 1000 0);
     getLatestBlockhash := getLatestBlockhash env_funded;
     signTransaction := signTransaction env_funded;
     sendRawTransaction := sendRawTransaction env_funded;
     confirmTransaction := confirmTransaction env_funded |}.

(** The same as [env_funded], with a wallet that declines to sign. *)
Definition env_declined : Env :=
  {| walletAddress := Some investor;
     isPresaleEnded := false;
     window_solana := true;
     PublicKey_valid := fun _ => true;
     getConnection := Normal tt;
     getBalance := getBalance env_funded;
     getLatestBlockhash := getLatestBlockhash env_funded;
     signTransaction := fun _ => Throw (Error (msg "User rejected the request."));
     sendRawTransaction := sendRawTransaction env_funded;
     confirmTransaction := confirmTransaction env_funded |}.

Definition typed (text : string) : State :=
  {| amount := js text; error := []; isProcessing := false |}.

Definition fresh (st : State) : World := {| state := st; log := [] |}.

End Scenarios.

(* ================================================================== *)
(** * What the component renders                                       *)
(* ================================================================== *)

Module Render.
Import JS Solana TokenSaleDetails.

(** A message is falsy when it is the empty string: an interpolated number
    never renders to nothing. *)
Definition is_empty_message (m : message) : bool :=
  forallb (fun f => match f with Text EmptyString => true | _ => false end) m.

(** The parts of the JSX that depend on the state: the amount field, the
    error paragraph under it and the button. *)
Record View := {
  input_value : js_string;
  input_disabled : bool;
  error_paragraph : option message;
  button_disabled : bool;
  button_label : string }.

Definition render (env : Env) (st : State) : View :=
  {| input_value := amount st;
     input_disabled := isProcessing st;
     error_paragraph :=                       (* error && <p>{error}</p> *)
       if is_empty_message (error st) then None else Some (error st);
     button_disabled := isPresaleEnded env || isProcessing st;
     button_label :=
       if isProcessing st then "Processing..."
       else match connected env with
            | Some _ => "Invest Now"
            | None => "Connect Wallet"
            end |}.

(** What a click on the button starts.  A disabled button fires no click;
    an enabled one runs [walletAddress ? handleInvest : connectWallet]. *)
Inductive click_effect :=
| click_ignored
| click_connectWallet
| click_handleInvest (w : World).

Definition click_button (env : Env) (st : State) : click_effect :=
  if button_disabled (render env st) then click_ignored
  else match connected env with
       | Some _ => click_handleInvest (run_handleInvest env st)
       | None => click_connectWallet
       end.

(** ** Further observations on a run *)

Definition is_notification (e : event) : bool :=
  match e with call_addNotification _ _ => true | _ => false end.

(** The place of a call in the submission protocol. *)
Definition rank (e : event) : nat :=
  match e with
  | call_getConnection => 0
  | call_getBalance _ _ => 1
  | call_getLatestBlockhash _ => 2
  | call_signTransaction _ => 3
  | call_sendRawTransaction _ _ _ => 4
  | call_confirmTransaction _ _ _ => 5
  | call_addNotification lvl_success _ => 6
  | call_addDeposit _ => 7
  | call_addNotification _ _ => 8
  end.

(** The message the [catch] block notifies for a thrown value. *)
Definition catch_message (e : exn) : message :=
  match e with
  | SendTransactionError m => Text "Transaction failed: " :: m
  | Error m => m
  | NotAnError => msg "Investment failed"
  end.

(** The accounts of the instruction built for the wallet address [wa]. *)
Definition invest_keys (wa : js_string) : list AccountMeta :=
  [ {| pubkey := {| toBase58 := wa |}; isSigner := true; isWritable := true |};
    {| pubkey := ADMIN_WALLET; isSigner := false; isWritable := true |};
    {| pubkey := SystemProgram_programId; isSigner := false;
       isWritable := false |} ].

(** The transaction built for the wallet address [wa], the lamports [z]
    and the blockhash [blockhash]. *)
Definition invest_transaction (wa : js_string) (z : Z) (blockhash : js_string)
  : Transaction :=
  {| instructions :=
       [ {| keys := invest_keys wa;
            programId := PROGRAM_ID;
            data := 0 :: le_bytes 8 z |} ];
     feePayer := Some {| toBase58 := wa |};
     recentBlockhash := Some blockhash |}.

(** The world left by typing [value] into the amount field. *)
Definition after_typing (env : Env) (value : js_string) (w : World) : World :=
  snd (handleAmountChange env value w).

(** The component as it is mounted: nothing typed, no error, idle. *)
Definition mounted : State :=
  {| amount := []; error := []; isProcessing := false |}.

(** [env_funded] with a network that refuses the broadcast. *)
Definition env_refused : Env :=
  {| walletAddress := walletAddress Scenarios.env_funded;
     isPresaleEnded := false;
     window_solana := true;
     PublicKey_valid := fun _ => true;
     getConnection := Normal tt;
     getBalance := getBalance Scenarios.env_funded;
     getLatestBlockhash := getLatestBlockhash Scenarios.env_funded;
     signTransaction := signTransaction Scenarios.env_funded;
     sendRawTransaction :=
       fun _ => Throw (SendTransactionError (msg "Blockhash not found"));
     confirmTransaction := confirmTransaction Scenarios.env_funded |}.

(** [env_funded] with a wallet that holds exactly 1.5 coins. *)
Definition env_exact : Env :=
  {| walletAddress := walletAddress Scenarios.env_funded;
     isPresaleEnded := false;
     window_solana := true;
     PublicKey_valid := fun _ => true;
     getConnection := Normal tt;
     getBalance := fun _ => Normal (number_of_decimal false 1500000000 0);
     getLatestBlockhash := getLatestBlockhash Scenarios.env_funded;
     signTransaction := signTransaction Scenarios.env_funded;
     sendRawTransaction := sendRawTransaction Scenarios.env_funded;
     confirmTransaction := confirmTransaction Scenarios.env_funded |}.

End Render.

(* ================================================================== *)
(** * Facts about the run time                                         *)
(* ================================================================== *)

Module JSFacts.
Import JS.

(** ** Sizes of mantissas *)

Lemma fexp_eq (x : Z) : fexp prec emax x = Z.max (x - 53) (-1074).
Proof. reflexivity. Qed.

Lemma digits2_pos_bounds (p : positive) :
  2 ^ (Zpos (digits2_pos p) - 1) <= Zpos p < 2 ^ Zpos (digits2_pos p).
Proof.
  induction p as [p IH | p IH | ]; simpl digits2_pos;
    [ rewrite Pos2Z.inj_succ | rewrite Pos2Z.inj_succ | simpl; lia ].
  all: replace (Z.succ (Zpos (digits2_pos p)) - 1) with (Zpos (digits2_pos p)) by lia.
  all: rewrite Z.pow_succ_r by lia.
  all: assert (E : 2 ^ Zpos (digits2_pos p) = 2 * 2 ^ (Zpos (digits2_pos p) - 1))
         by (rewrite <- Z.pow_succ_r by lia; f_equal; lia).
  all: lia.
Qed.

Lemma Zdigits2_nonneg (m : Z) : 0 <= Zdigits2 m.
Proof. destruct m; simpl; lia. Qed.

Lemma Zdigits2_upper (m : Z) : 0 <= m -> m < 2 ^ Zdigits2 m.
Proof.
  destruct m as [ | p | p ]; intros H; simpl; try lia.
  apply digits2_pos_bounds.
Qed.

(** A non-negative integer below [2^k] has at most [k] binary digits. *)
Lemma Zdigits2_le (m k : Z) : 0 <= m -> 0 <= k -> m < 2 ^ k -> Zdigits2 m <= k.
Proof.
  intros Hm Hk Hlt. destruct m as [ | p | p ]; simpl; try lia.
  destruct (digits2_pos_bounds p) as [Hlo _].
  destruct (Z_le_gt_dec (Zpos (digits2_pos p)) k) as [ | Hgt]; [assumption | exfalso].
  assert (2 ^ k <= 2 ^ (Zpos (digits2_pos p) - 1)) by (apply Z.pow_le_mono_r; lia).
  lia.
Qed.

Lemma digits2_pos_shift (p : positive) (k : positive) :
  digits2_pos (Pos.iter xO p k) = (digits2_pos p + k)%positive.
Proof.
  revert p. induction k as [ | k IH ] using Pos.peano_ind; intros p.
  - simpl. lia.
  - rewrite Pos.iter_succ. simpl. rewrite IH. lia.
Qed.

Lemma iter_xO_value (p k : positive) :
  Zpos (Pos.iter xO p k) = Zpos p * 2 ^ Zpos k.
Proof.
  revert p. induction k as [ | k IH ] using Pos.peano_ind; intros p.
  - simpl. lia.
  - rewrite Pos.iter_succ. change (Zpos (Pos.iter xO p k)~0) with (2 * Zpos (Pos.iter xO p k)).
    rewrite IH, Pos2Z.inj_succ, Z.pow_succ_r by lia. lia.
Qed.

(** ** Shifting right *)

Lemma shr_1_m (r : shr_record) :
  0 <= shr_m r -> shr_m (shr_1 r) = shr_m r / 2.
Proof.
  destruct r as [m b s]. simpl shr_m. intros Hm.
  destruct m as [ | [p | p | ] | p ]; simpl shr_m; try reflexivity; try lia.
  - apply Z.div_unique with 1; lia.
  - apply Z.div_unique with 0; lia.
Qed.

Lemma iter_shr_m (p : positive) :
  forall r, 0 <= shr_m r ->
            shr_m (iter_pos shr_1 p r) = shr_m r / 2 ^ Zpos p.
Proof.
  assert (Hpos : forall k, 0 < 2 ^ Zpos k) by (intros; apply Z.pow_pos_nonneg; lia).
  induction p as [p IH | p IH | ]; intros r Hr; simpl iter_pos.
  - assert (H1 : 0 <= shr_m (shr_1 r))
      by (rewrite shr_1_m by assumption; apply Z.div_pos; lia).
    assert (H2 : 0 <= shr_m (iter_pos shr_1 p (shr_1 r)))
      by (rewrite IH by assumption; apply Z.div_pos; [lia | apply Hpos]).
    rewrite IH, IH, shr_1_m by assumption.
    rewrite !Z.div_div by (specialize (Hpos p); lia).
    f_equal.
    replace (Zpos p~1) with (1 + Zpos p + Zpos p) by lia.
    rewrite !Z.pow_add_r by lia. rewrite Z.pow_1_r. lia.
  - assert (H2 : 0 <= shr_m (iter_pos shr_1 p r))
      by (rewrite IH by assumption; apply Z.div_pos; [lia | apply Hpos]).
    rewrite IH, IH by assumption.
    rewrite !Z.div_div by (specialize (Hpos p); lia).
    f_equal.
    replace (Zpos p~0) with (Zpos p + Zpos p) by lia.
    rewrite !Z.pow_add_r by lia. reflexivity.
  - rewrite shr_1_m by assumption. reflexivity.
Qed.

Lemma shr_spec (r : shr_record) (e n : Z) :
  0 <= shr_m r ->
  shr_m (fst (shr r e n)) = shr_m r / 2 ^ Z.max n 0 /\
  snd (shr r e n) = e + Z.max n 0.
Proof.
  intros Hr. destruct n as [ | p | p ]; simpl.
  - rewrite Z.div_1_r. lia.
  - rewrite iter_shr_m by assumption. split; [reflexivity | lia].
  - rewrite Z.div_1_r. lia.
Qed.

Lemma shr_record_of_loc_m (m : Z) (l : location) :
  shr_m (shr_record_of_loc m l) = m.
Proof. destruct l as [ | [ | | ] ]; reflexivity. Qed.

(** What [shr_fexp] returns: the mantissa divided by a power of two, the
    exponent raised by as much, and a mantissa that fits 53 bits. *)
Lemma shr_fexp_spec (m e : Z) (l : location) :
  0 <= m ->
  let k := Z.max (fexp prec emax (Zdigits2 m + e) - e) 0 in
  shr_m (fst (shr_fexp prec emax m e l)) = m / 2 ^ k /\
  snd (shr_fexp prec emax m e l) = e + k /\
  0 <= m / 2 ^ k < 2 ^ 53.
Proof.
  intros Hm k. unfold shr_fexp.
  destruct (shr_spec (shr_record_of_loc m l) e
                     (fexp prec emax (Zdigits2 m + e) - e)) as [H1 H2].
  { rewrite shr_record_of_loc_m. assumption. }
  rewrite shr_record_of_loc_m in H1. fold k in H1, H2.
  split; [assumption | split; [assumption | ] ].
  assert (Hk : 0 <= k) by (unfold k; lia).
  assert (Hp : 0 < 2 ^ k) by (apply Z.pow_pos_nonneg; lia).
  split; [apply Z.div_pos; lia | ].
  apply Z.div_lt_upper_bound; [assumption | ].
  rewrite <- Z.pow_add_r by lia.
  pose proof (Zdigits2_upper m Hm) as Hd.
  pose proof (Zdigits2_nonneg m) as Hd0.
  assert (Hle : Zdigits2 m <= k + 53).
  { unfold k. rewrite fexp_eq. lia. }
  assert (2 ^ Zdigits2 m <= 2 ^ (k + 53)) by (apply Z.pow_le_mono_r; lia).
  lia.
Qed.

Lemma round_nearest_even_bounds (m : Z) (l : location) :
  m <= round_nearest_even m l <= m + 1.
Proof.
  destruct l as [ | [ | | ] ]; simpl; try lia.
  destruct (Z.even m); lia.
Qed.

(** The shape of every result of [binary_round_aux] on a non-negative
    mantissa: a mantissa below [2^53] and an exponent at most one above
    the larger of the given exponent and the canonical one. *)
Lemma binary_round_aux_cases (s : bool) (m e : Z) (l : location) :
  0 <= m ->
  exists m2 e2,
    0 <= m2 < 2 ^ 53 /\
    e2 <= Z.max (Z.max e (fexp prec emax (Zdigits2 m + e)) + 1) (-1074) /\
    binary_round_aux prec emax s m e l =
      match m2 with
      | Z0 => S754_zero s
      | Zpos p => if e2 <=? emax - prec then S754_finite s p e2
                  else S754_infinity s
      | Zneg _ => S754_nan
      end.
Proof.
  intros Hm. unfold binary_round_aux.
  destruct (shr_fexp_spec m e l Hm) as (Hm1 & He1 & Hb1).
  destruct (shr_fexp prec emax m e l) as [r1 e1]. simpl fst in *. simpl snd in *.
  set (m1 := round_nearest_even (shr_m r1) (loc_of_shr_record r1)).
  assert (Hr : shr_m r1 <= m1 <= shr_m r1 + 1) by apply round_nearest_even_bounds.
  assert (Hm1' : 0 <= m1) by lia.
  destruct (shr_fexp_spec m1 e1 loc_Exact Hm1') as (Hm2 & He2 & Hb2).
  destruct (shr_fexp prec emax m1 e1 loc_Exact) as [r2 e2].
  simpl fst in *. simpl snd in *.
  exists (shr_m r2), e2. rewrite Hm2. split; [assumption | ]. split.
  - subst e2 e1.
    assert (Hd : Zdigits2 m1 <= 54).
    { apply Zdigits2_le; lia. }
    rewrite !fexp_eq. lia.
  - rewrite <- Hm2. reflexivity.
Qed.


(** Rounding changes nothing when the mantissa is canonical already. *)
Lemma binary_round_aux_exact (s : bool) (m : positive) (e : Z) :
  fexp prec emax (Zpos (digits2_pos m) + e) = e ->
  e <= emax - prec ->
  binary_round_aux prec emax s (Zpos m) e loc_Exact = S754_finite s m e.
Proof.
  intros Hc He. unfold binary_round_aux, shr_fexp. simpl Zdigits2.
  rewrite Hc, Z.sub_diag.
  cbn [shr shr_record_of_loc shr_m loc_of_shr_record round_nearest_even Zdigits2].
  rewrite Hc, Z.sub_diag. cbn [shr shr_record_of_loc shr_m].
  apply Z.leb_le in He. rewrite He. reflexivity.
Qed.

(** An integer below [2^53] is a binary64 value. *)
Lemma binary_round_integer (s : bool) (p : positive) :
  Zpos p < 2 ^ 53 ->
  exists m e, binary_round prec emax s p 0 = S754_finite s m e /\
              e <= 0 /\ Zpos m = Zpos p * 2 ^ (- e).
Proof.
  intros Hp. unfold binary_round.
  assert (Hd : Zpos (digits2_pos p) <= 53)
    by (apply (Zdigits2_le (Zpos p)); lia).
  rewrite fexp_eq. unfold shl_align.
  replace (Z.max (Zpos (digits2_pos p) + 0 - 53) (-1074))
    with (Zpos (digits2_pos p) - 53) by lia.
  destruct (Zpos (digits2_pos p) - 53 - 0) as [ | k | k ] eqn:Ek; try lia.
  - exists p, 0. split; [ | simpl; lia].
    apply binary_round_aux_exact; [rewrite fexp_eq | unfold emax, prec]; lia.
  - exists (Pos.iter xO p k), (Zpos (digits2_pos p) - 53).
    split; [ | split; [lia | ] ].
    + apply binary_round_aux_exact; [ | unfold emax, prec; lia].
      rewrite digits2_pos_shift, fexp_eq. lia.
    + rewrite iter_xO_value. f_equal. f_equal. lia.
Qed.

Lemma Zfloor_abs_le (s : bool) (m : positive) (e : Z) :
  e < 0 -> Z.abs (Zfloor (S754_finite s m e)) <= Zpos m.
Proof.
  intros He. unfold Zfloor. rewrite Z.shiftl_div_pow2 by lia.
  assert (Hp : 0 < 2 ^ (- e)) by (apply Z.pow_pos_nonneg; lia).
  destruct s; simpl cond_Zopp.
  - assert (- Zpos m <= Zneg m / 2 ^ (- e)).
    { apply Z.div_le_lower_bound; [assumption | ]. nia. }
    assert (Zneg m / 2 ^ (- e) < 0) by (apply Z.div_lt_upper_bound; lia).
    lia.
  - assert (0 <= Zpos m / 2 ^ (- e)) by (apply Z.div_pos; lia).
    assert (Zpos m / 2 ^ (- e) <= Zpos m).
    { apply Z.div_le_upper_bound; [assumption | ]. nia. }
    lia.
Qed.

(** [Zfloor] is the floor of the value [(-1)^s * m * 2^e]. *)
Lemma Zfloor_spec (s : bool) (m : positive) (e : Z) :
  let v := cond_Zopp s (Zpos m) in
  if 0 <=? e then Zfloor (S754_finite s m e) = v * 2 ^ e
  else Zfloor (S754_finite s m e) * 2 ^ (- e) <= v
         < (Zfloor (S754_finite s m e) + 1) * 2 ^ (- e).
Proof.
  intros v. unfold Zfloor. fold v.
  destruct (0 <=? e) eqn:He.
  - apply Z.leb_le in He. apply Z.shiftl_mul_pow2. assumption.
  - apply Z.leb_gt in He. rewrite Z.shiftl_div_pow2 by lia.
    assert (Hp : 0 < 2 ^ (- e)) by (apply Z.pow_pos_nonneg; lia).
    pose proof (Z.mul_div_le v _ Hp). pose proof (Z.mul_succ_div_gt v _ Hp).
    lia.
Qed.

(** [BigInt] accepts a number exactly when it is an integer, and returns
    that integer. *)
Lemma BigInt_denotes (x : number) (z : Z) :
  BigInt x = Normal z <-> denotes x z.
Proof.
  destruct x as [s | s | | s m e]; simpl BigInt; simpl denotes.
  - split; [intros [= <-]; reflexivity | intros ->; reflexivity].
  - split; [discriminate | contradiction].
  - split; [discriminate | contradiction].
  - unfold Zfloor. set (v := cond_Zopp s (Zpos m)).
    destruct (0 <=? e) eqn:He.
    + apply Z.leb_le in He. rewrite Z.shiftl_mul_pow2 by assumption.
      split; [intros [= <-]; reflexivity | intros ->; reflexivity].
    + apply Z.leb_gt in He. rewrite Z.shiftl_div_pow2 by lia.
      assert (Hp : 0 < 2 ^ (- e)) by (apply Z.pow_pos_nonneg; lia).
      assert (Hv : Zpos m mod 2 ^ (- e) = 0 <-> v mod 2 ^ (- e) = 0).
      { unfold v. destruct s; simpl cond_Zopp; [ | tauto].
        change (Zneg m) with (- Zpos m). split; intros H.
        - apply Z.mod_opp_l_z; [lia | assumption].
        - apply Z.mod_opp_l_z in H; [ | lia].
          rewrite Z.opp_involutive in H. assumption. }
      destruct (Zpos m mod 2 ^ (- e) =? 0) eqn:Em.
      * apply Z.eqb_eq in Em. apply Hv in Em.
        pose proof (Z.div_mod v (2 ^ (- e)) ltac:(lia)) as Hdm.
        rewrite Em in Hdm. split.
        -- intros [= <-]. lia.
        -- intros Hz. f_equal. rewrite Hz. apply Z.div_mul. lia.
      * apply Z.eqb_neq in Em. split; [discriminate | ].
        intros Hz. exfalso. apply Em. apply Hv. rewrite Hz. apply Z.mod_mul. lia.
Qed.

Lemma BigInt_throws (x : number) :
  (forall z, ~ denotes x z) -> BigInt x = Throw (RangeError_not_an_integer x).
Proof.
  intros H. destruct (BigInt x) as [z | err] eqn:E.
  - exfalso. apply (H z). apply BigInt_denotes. assumption.
  - rewrite <- E. destruct x as [s | s | | s m e]; try reflexivity.
    + discriminate.
    + simpl in *. destruct (0 <=? e); [discriminate | ].
      destruct (Zpos m mod 2 ^ (- e) =? 0); [discriminate | reflexivity].
Qed.

(** [BigInt(Math.floor(x))] is the integer [floor x] whenever [x] is
    finite. *)
Lemma BigInt_Math_floor (x : number) :
  mantissa_bounded x ->
  match x with S754_zero _ | S754_finite _ _ _ => True | _ => False end ->
  BigInt (Math_floor x) = Normal (Zfloor x).
Proof.
  intros Hb Hfin. destruct x as [s | s | | s m e]; try contradiction.
  - reflexivity.
  - simpl in Hb. unfold Math_floor.
    destruct (0 <=? e) eqn:He.
    + unfold BigInt. rewrite He. reflexivity.
    + apply Z.leb_gt in He.
      pose proof (Zfloor_abs_le s m e He) as Habs.
      set (z := Zfloor (S754_finite s m e)) in *.
      unfold binary_normalize.
      destruct z as [ | p | p ]; [reflexivity | | ].
      * destruct (binary_round_integer false p) as (mz & ez & -> & Hez & Hmz); [lia | ].
        unfold BigInt, Zfloor. simpl cond_Zopp.
        assert (Hp : 0 < 2 ^ (- ez)) by (apply Z.pow_pos_nonneg; lia).
        destruct (0 <=? ez) eqn:E0.
        -- apply Z.leb_le in E0. assert (ez = 0) by lia. subst ez.
           simpl in Hmz. rewrite Z.shiftl_0_r. f_equal. lia.
        -- rewrite Hmz, Z.mod_mul by lia. change (0 =? 0) with true. cbv iota.
           rewrite Z.shiftl_div_pow2 by lia. rewrite Z.div_mul by lia. reflexivity.
      * destruct (binary_round_integer true p) as (mz & ez & -> & Hez & Hmz); [lia | ].
        unfold BigInt, Zfloor. simpl cond_Zopp.
        assert (Hp : 0 < 2 ^ (- ez)) by (apply Z.pow_pos_nonneg; lia).
        destruct (0 <=? ez) eqn:E0.
        -- apply Z.leb_le in E0. assert (ez = 0) by lia. subst ez.
           simpl in Hmz. rewrite Z.shiftl_0_r. f_equal. lia.
        -- rewrite Hmz, Z.mod_mul by lia. change (0 =? 0) with true. cbv iota.
           rewrite Z.shiftl_div_pow2 by lia.
           replace (Zneg mz) with (Zneg p * 2 ^ (- ez)) by lia.
           rewrite Z.div_mul by lia. reflexivity.
Qed.


(** ** Validity of rounded results *)

Lemma fexp_ge_emin (x : Z) : -1074 <= fexp prec emax x.
Proof. rewrite fexp_eq. lia. Qed.

Lemma fexp_monotone (x y : Z) : x <= y -> fexp prec emax x <= fexp prec emax y.
Proof. rewrite !fexp_eq. lia. Qed.

(** A non-negative integer of at least [2^(k-1)] has at least [k] binary
    digits. *)
Lemma Zdigits2_ge (m k : Z) : 2 ^ (k - 1) <= m -> 0 <= m -> k <= Zdigits2 m.
Proof.
  intros Hlo Hm. pose proof (Zdigits2_upper m Hm) as Hhi.
  pose proof (Zdigits2_nonneg m) as Hd.
  destruct (Z_le_gt_dec k (Zdigits2 m)) as [ | Hgt]; [assumption | exfalso].
  assert (2 ^ Zdigits2 m <= 2 ^ (k - 1)) by (apply Z.pow_le_mono_r; lia).
  lia.
Qed.

Lemma Zdigits2_lower (m : Z) : 0 < m -> 2 ^ (Zdigits2 m - 1) <= m.
Proof.
  destruct m as [ | p | p ]; try lia. intros _. apply digits2_pos_bounds.
Qed.

Lemma Zdigits2_div (m b : Z) :
  0 <= m -> 0 < b -> Zdigits2 m - Zdigits2 b <= Zdigits2 (m / b).
Proof.
  intros Hm Hb.
  assert (Hq : 0 <= m / b) by (apply Z.div_pos; lia).
  pose proof (Zdigits2_nonneg (m / b)) as Hdq.
  destruct (Z_le_gt_dec (Zdigits2 m - Zdigits2 b) 0) as [ | Hgt]; [lia | ].
  apply Zdigits2_ge; [ | assumption].
  assert (Hm0 : 0 < m).
  { destruct (Z.eq_dec m 0) as [-> | ]; [ | lia].
    simpl in Hgt. pose proof (Zdigits2_nonneg b). lia. }
  pose proof (Zdigits2_lower m Hm0) as Hlo.
  pose proof (Zdigits2_upper b ltac:(lia)) as Hhi.
  pose proof (Zdigits2_nonneg b) as Hdb.
  apply Z.div_le_lower_bound; [assumption | ].
  assert (E : 2 ^ (Zdigits2 m - 1)
              = 2 ^ Zdigits2 b * 2 ^ (Zdigits2 m - Zdigits2 b - 1)).
  { rewrite <- Z.pow_add_r by lia. f_equal. lia. }
  assert (0 < 2 ^ (Zdigits2 m - Zdigits2 b - 1)) by (apply Z.pow_pos_nonneg; lia).
  nia.
Qed.

Lemma Zdigits2_shiftl (m s : Z) :
  0 < m -> 0 <= s -> Zdigits2 (m * 2 ^ s) = Zdigits2 m + s.
Proof.
  intros Hm Hs.
  assert (Hp : 0 < 2 ^ s) by (apply Z.pow_pos_nonneg; lia).
  pose proof (Zdigits2_lower m Hm) as Hlo.
  pose proof (Zdigits2_upper m ltac:(lia)) as Hhi.
  assert (Hd : 1 <= Zdigits2 m) by (destruct m; simpl; lia).
  apply Z.le_antisymm.
  - apply Zdigits2_le; try nia; try lia.
    rewrite Z.pow_add_r by lia. nia.
  - apply Zdigits2_ge; [ | nia].
    replace (Zdigits2 m + s - 1) with (Zdigits2 m - 1 + s) by lia.
    rewrite Z.pow_add_r by lia. nia.
Qed.

(** Rounding a mantissa given with enough digits yields a binary64 value:
    zero, an infinity, or a canonical mantissa and exponent. *)
Lemma binary_round_aux_valid (s : bool) (m e : Z) (l : location) :
  0 <= m ->
  e <= fexp prec emax (Zdigits2 m + e) ->
  valid_binary prec emax (binary_round_aux prec emax s m e l) = true.
Proof.
  intros Hm He. unfold binary_round_aux.
  destruct (shr_fexp_spec m e l Hm) as (Hm1 & He1 & Hb1).
  destruct (shr_fexp prec emax m e l) as [r1 e1]. simpl fst in *. simpl snd in *.
  replace (Z.max (fexp prec emax (Zdigits2 m + e) - e) 0)
    with (fexp prec emax (Zdigits2 m + e) - e) in * by lia.
  set (k := fexp prec emax (Zdigits2 m + e) - e) in *.
  assert (Hk : 0 <= k) by (unfold k; lia).
  assert (He1' : e1 = fexp prec emax (Zdigits2 m + e)) by (unfold k in He1; lia).
  set (m1 := round_nearest_even (shr_m r1) (loc_of_shr_record r1)).
  assert (Hr : shr_m r1 <= m1 <= shr_m r1 + 1) by apply round_nearest_even_bounds.
  assert (Hm1' : 0 <= m1) by lia.
  (* the rounded mantissa is canonical, or it is 2^53 *)
  assert (Hcanon : fexp prec emax (Zdigits2 m1 + e1) = e1 \/
                   (fexp prec emax (Zdigits2 m1 + e1) = e1 + 1 /\ m1 = 2 ^ 53)).
  { pose proof (fexp_ge_emin (Zdigits2 m + e)) as Hmin.
    assert (Hd54 : Zdigits2 m1 <= 54) by (apply Zdigits2_le; lia).
    assert (Hlow : e1 = -1074 \/ 53 <= Zdigits2 m1).
    { destruct (Z.eq_dec e1 (-1074)) as [ | Hne]; [left; assumption | right].
      assert (Ek : k = Zdigits2 m - 53) by (unfold k; rewrite fexp_eq in *; lia).
      assert (Hm0 : 0 < m).
      { destruct (Z.eq_dec m 0) as [-> | ]; [ | lia]. simpl in Ek.
        unfold k in *. rewrite fexp_eq in *. simpl in He. lia. }
      pose proof (Zdigits2_lower m Hm0) as Hlo.
      apply Zdigits2_ge; [ | assumption].
      assert (2 ^ 52 <= m / 2 ^ k); [ | lia].
      apply Z.div_le_lower_bound; [apply Z.pow_pos_nonneg; lia | ].
      rewrite <- Z.pow_add_r by lia.
      replace (k + 52) with (Zdigits2 m - 1) by lia. assumption. }
    destruct (Z_le_gt_dec (Zdigits2 m1) 53) as [Hle | Hgt].
    - left. rewrite fexp_eq. rewrite fexp_eq in He1'. lia.
    - right. assert (Zdigits2 m1 = 54) by lia.
      assert (2 ^ (54 - 1) <= m1).
      { replace 54 with (Zdigits2 m1) by lia. apply Zdigits2_lower.
        destruct m1; simpl in *; lia. }
      split; [rewrite fexp_eq; rewrite fexp_eq in He1'; lia | lia]. }
  destruct (shr_fexp_spec m1 e1 loc_Exact Hm1') as (Hm2 & He2 & Hb2).
  destruct (shr_fexp prec emax m1 e1 loc_Exact) as [r2 e2].
  simpl fst in *. simpl snd in *.
  destruct (shr_m r2) as [ | p | p ] eqn:Ep; try reflexivity.
  destruct (e2 <=? emax - prec) eqn:Ee; [ | reflexivity].
  unfold valid_binary, bounded, canonical_mantissa. rewrite Ee, andb_true_r.
  apply Z.eqb_eq. change (Zpos (digits2_pos p)) with (Zdigits2 (Zpos p)).
  destruct Hcanon as [Hc | [Hc H53] ].
  - rewrite Hc, Z.sub_diag in *. simpl Z.max in *. rewrite Z.div_1_r in Hm2.
    replace e2 with e1 by lia. rewrite Hm2. assumption.
  - rewrite Hc in *. replace (Z.max (e1 + 1 - e1) 0) with 1 in * by lia.
    rewrite H53 in Hm2. change (2 ^ 53 / 2 ^ 1) with (2 ^ 52) in Hm2.
    rewrite Hm2. subst e2. simpl Zdigits2.
    change (Zpos (digits2_pos (Z.to_pos (2 ^ 52)))) with 53.
    rewrite fexp_eq in *. lia.
Qed.

Lemma binary_round_valid (s : bool) (p : positive) (e : Z) :
  valid_binary prec emax (binary_round prec emax s p e) = true.
Proof.
  unfold binary_round, shl_align.
  set (e' := fexp prec emax (Zpos (digits2_pos p) + e)).
  destruct (e' - e) as [ | d | d ] eqn:Ed.
  - apply binary_round_aux_valid; [lia | ]. simpl Zdigits2. fold e'. lia.
  - apply binary_round_aux_valid; [lia | ]. simpl Zdigits2. fold e'. lia.
  - apply binary_round_aux_valid; [lia | ]. simpl Zdigits2.
    rewrite digits2_pos_shift.
    replace (Zpos (digits2_pos p + d) + e') with (Zpos (digits2_pos p) + e) by lia.
    fold e'. lia.
Qed.

Lemma SFdiv_core_binary_valid (s : bool) (m d : Z) :
  0 < m -> 0 < d ->
  valid_binary prec emax
    (let '(q, e', l) := SFdiv_core_binary prec emax m 0 d 0 in
     binary_round_aux prec emax s q e' l) = true.
Proof.
  intros Hm Hd. unfold SFdiv_core_binary.
  set (e' := Z.min (fexp prec emax (Zdigits2 m + 0 - (Zdigits2 d + 0))) (0 - 0)).
  assert (He' : e' <= 0) by (unfold e'; lia).
  assert (Hf : e' <= fexp prec emax (Zdigits2 m - Zdigits2 d)).
  { unfold e'. replace (Zdigits2 m + 0 - (Zdigits2 d + 0))
      with (Zdigits2 m - Zdigits2 d) by lia. lia. }
  set (m' := match 0 - 0 - e' with Zpos _ => Z.shiftl m (0 - 0 - e')
                                | Z0 => m | Zneg _ => 0 end).
  assert (Hm' : m' = m * 2 ^ (- e')).
  { unfold m'. destruct (0 - 0 - e') as [ | x | x ] eqn:Ex; try lia.
    - replace (- e') with 0 by lia. simpl. lia.
    - rewrite Z.shiftl_mul_pow2 by lia. f_equal. f_equal. lia. }
  pose proof (Z_div_mod_eq_full m' d) as Hdm.
  unfold Z.div, Z.modulo in Hdm.
  assert (Hq : Z.div m' d = fst (Z.div_eucl m' d)) by reflexivity.
  destruct (Z.div_eucl m' d) as [q r]. simpl fst in Hq.
  assert (Hp : 0 < 2 ^ (- e')) by (apply Z.pow_pos_nonneg; lia).
  assert (Hm'0 : 0 < m') by nia.
  assert (Hq0 : 0 <= q) by (rewrite <- Hq; apply Z.div_pos; lia).
  apply binary_round_aux_valid; [assumption | ].
  pose proof (Zdigits2_div m' d ltac:(lia) Hd) as Hdig.
  rewrite Hq in Hdig. rewrite Hm', Zdigits2_shiftl in Hdig by lia.
  etransitivity; [exact Hf | ]. apply fexp_monotone. lia.
Qed.

Lemma number_of_decimal_valid (neg : bool) (m e : Z) :
  0 <= m -> valid_binary prec emax (number_of_decimal neg m e) = true.
Proof.
  intros Hm. unfold number_of_decimal.
  destruct (m =? 0) eqn:E0; [reflexivity | apply Z.eqb_neq in E0].
  destruct (0 <=? e) eqn:He; [ | apply Z.leb_gt in He].
  - unfold binary_normalize.
    destruct (cond_Zopp neg (m * 10 ^ e)) as [ | p | p ];
      [reflexivity | apply binary_round_valid | apply binary_round_valid].
  - apply SFdiv_core_binary_valid; [lia | apply Z.pow_pos_nonneg; lia].
Qed.

(** ** Comparisons *)

Lemma SFcompare_antisym (x y : number) :
  SFcompare y x = option_map CompOpp (SFcompare x y).
Proof.
  destruct x as [sx | sx | | sx mx ex], y as [sy | sy | | sy my ey];
    try reflexivity;
    try (destruct sx; reflexivity);
    try (destruct sy; reflexivity);
    try (destruct sx, sy; reflexivity).
  simpl. f_equal.
  destruct sx, sy; try reflexivity;
    rewrite (Z.compare_antisym ex ey);
    destruct (ex ?= ey); try reflexivity; simpl;
    rewrite (ZC4 my mx), ?CompOpp_involutive; reflexivity.
Qed.

Lemma leb_ltb_false (x y : number) : leb x y = true -> ltb y x = false.
Proof.
  unfold leb, ltb, SFleb, SFltb. rewrite (SFcompare_antisym x y).
  destruct (SFcompare x y) as [ [ | | ] | ]; simpl; congruence.
Qed.

Lemma leb_not_NaN_l (x y : number) : leb x y = true -> isNaN x = false.
Proof. destruct x; try reflexivity. discriminate. Qed.

Lemma leb_not_NaN_r (x y : number) : leb x y = true -> isNaN y = false.
Proof. destruct y; try reflexivity. destruct x; discriminate. Qed.

(** ** Little-endian bytes *)

Lemma decode_le_bytes (n : nat) :
  forall v, decode_le (le_bytes n v) = v mod 256 ^ Z.of_nat n.
Proof.
  induction n as [ | n IH ]; intros v.
  - simpl. rewrite Z.mod_1_r. reflexivity.
  - cbn [le_bytes decode_le fold_right]. fold (decode_le (le_bytes n (v / 256))).
    rewrite IH, Nat2Z.inj_succ, Z.pow_succ_r by lia.
    rewrite Z.rem_mul_r; [reflexivity | lia | apply Z.pow_pos_nonneg; lia].
Qed.

Lemma length_le_bytes (n : nat) : forall v, length (le_bytes n v) = n.
Proof. induction n; intros; simpl; [ | rewrite IHn]; reflexivity. Qed.

Lemma decode_le_bytes_u64 (v : Z) :
  decode_le (le_bytes 8 (ToBigUint64 v)) = v mod 2 ^ 64.
Proof.
  rewrite decode_le_bytes. unfold ToBigUint64.
  change (256 ^ Z.of_nat 8) with (2 ^ 64). apply Z.mod_mod. lia.
Qed.

(** ** Numbers read from strings *)

Lemma digit_of_nonneg (radix : N) (c : code_unit) (d : Z) :
  digit_of radix c = Some d -> 0 <= d.
Proof.
  unfold digit_of.
  destruct (if ((48 <=? c) && (c <=? 57))%N then _ else _) as [v | ]; [ | discriminate].
  destruct (v <? radix)%N; [ | discriminate].
  intros [= <-]. lia.
Qed.

Lemma span_digits_nonneg (radix : N) (s : js_string) :
  Forall (fun d => 0 <= d) (fst (span_digits radix s)).
Proof.
  induction s as [ | c r IH ]; simpl; [constructor | ].
  destruct (digit_of radix c) as [d | ] eqn:Ed; [ | constructor].
  destruct (span_digits radix r) as [ds rest]. simpl in *.
  constructor; [eapply digit_of_nonneg; eassumption | assumption].
Qed.

Lemma digits_value_nonneg (radix : Z) (ds : list Z) :
  0 <= radix -> Forall (fun d => 0 <= d) ds -> 0 <= digits_value radix ds.
Proof.
  intros Hr Hds. unfold digits_value.
  assert (G : forall acc, 0 <= acc ->
                0 <= fold_left (fun acc d => radix * acc + d) ds acc).
  { induction Hds as [ | d ds Hd _ IH ]; intros acc Hacc; simpl; [assumption | ].
    apply IH. nia. }
  apply G. lia.
Qed.

Lemma parse_StrUnsignedDecimalLiteral_nonneg (s : js_string) (m e : Z) :
  parse_StrUnsignedDecimalLiteral s = Some (MV_Decimal m e) -> 0 <= m.
Proof.
  unfold parse_StrUnsignedDecimalLiteral.
  destruct (eqb_js_string s (js "Infinity")); [discriminate | ].
  pose proof (span_digits_nonneg 10 s) as Hip.
  destruct (span_digits 10 s) as [ip r1]. simpl in Hip.
  assert (Hfp : forall fp r2,
             match r1 with
             | 46%N :: r => span_digits 10 r
             | _ => ([], r1)
             end = (fp, r2) -> Forall (fun d => 0 <= d) fp).
  { intros fp r2 E. destruct r1 as [ | c r ]; [injection E as <- _; constructor | ].
    destruct (N.eq_dec c 46) as [-> | Hc].
    - pose proof (span_digits_nonneg 10 r) as H. rewrite E in H. exact H.
    - destruct c as [ | p ]; [injection E as <- _; constructor | ].
      repeat (destruct p as [p | p | ]; try (injection E as <- _; constructor));
        congruence. }
  destruct (match r1 with 46%N :: r => span_digits 10 r | _ => ([], r1) end)
    as [fp r2].
  specialize (Hfp fp r2 eq_refl).
  destruct (ip ++ fp) eqn:Eds; [discriminate | ]. rewrite <- Eds.
  destruct (parse_exponent r2); [ | discriminate].
  intros [= <- _]. apply digits_value_nonneg; [lia | ].
  apply Forall_app. split; assumption.
Qed.

Lemma parse_StrDecimalLiteral_valid (s : js_string) :
  valid_binary prec emax (parse_StrDecimalLiteral s) = true.
Proof.
  unfold parse_StrDecimalLiteral.
  destruct (match s with 43%N :: t => (false, t) | 45%N :: t => (true, t)
                    | _ => (false, s) end) as [neg u].
  destruct (parse_StrUnsignedDecimalLiteral u) as [ [ | m e ] | ] eqn:E;
    try reflexivity.
  apply number_of_decimal_valid.
  eapply parse_StrUnsignedDecimalLiteral_nonneg. eassumption.
Qed.

Lemma of_integer_literal_valid (radix : N) (s : js_string) :
  valid_binary prec emax (of_integer_literal (parse_radix radix s)) = true.
Proof.
  unfold parse_radix.
  pose proof (span_digits_nonneg radix s) as H.
  destruct (span_digits radix s) as [ [ | d ds ] [ | c r ] ]; try reflexivity.
  simpl of_integer_literal. apply number_of_decimal_valid.
  apply digits_value_nonneg; [lia | exact H].
Qed.

(** Every number read from a string is a binary64 value. *)
Lemma Number_valid (value : js_string) :
  valid_binary prec emax (Number value) = true.
Proof.
  unfold Number, StringToNumber.
  destruct (trim value) as [ | c t ]; [reflexivity | ].
  destruct (N.eq_dec c 48) as [-> | Hc].
  - destruct t as [ | p r ]; [apply parse_StrDecimalLiteral_valid | ].
    repeat match goal with
           | |- context [if ?b then _ else _] => destruct b
           end;
      (apply of_integer_literal_valid || apply parse_StrDecimalLiteral_valid).
  - destruct c as [ | q ]; [apply parse_StrDecimalLiteral_valid | ].
    repeat (destruct q as [q | q | ]; try apply parse_StrDecimalLiteral_valid).
    congruence.
Qed.

Lemma valid_binary_bounded (x : number) :
  valid_binary prec emax x = true -> mantissa_bounded x.
Proof.
  destruct x as [ | | | s m e ]; try (intros; exact I).
  unfold valid_binary, bounded, canonical_mantissa. intros H.
  apply andb_true_iff in H. destruct H as [H _]. apply Z.eqb_eq in H.
  rewrite fexp_eq in H. simpl.
  destruct (digits2_pos_bounds m) as [_ Hhi].
  assert (2 ^ Zpos (digits2_pos m) <= 2 ^ 53) by (apply Z.pow_le_mono_r; lia).
  lia.
Qed.

Lemma Number_bounded (value : js_string) : mantissa_bounded (Number value).
Proof. apply valid_binary_bounded, Number_valid. Qed.

Example Number_decimal : Number (js " 12.375e-1 ") = number_of_decimal false 12375 (-4).
Proof. vm_compute. reflexivity. Qed.

Example Number_not_numeric :
  map Number [js "abc"; js "1_000"; js "."; js "1e"; js "0x"; js "-0x10"; js "1 2"]
    = repeat NaN 7.
Proof. vm_compute. reflexivity. Qed.

Example Number_overflow : Number (js "1e400") = Infinity.
Proof. vm_compute. reflexivity. Qed.

Example Number_radix :
  map Number [js "0x1F"; js "0o17"; js "0b101"]
    = map (fun n => number_of_decimal false n 0) [31; 15; 5].
Proof. vm_compute. reflexivity. Qed.

Example Math_floor_examples :
  map (fun s => Zfloor (Math_floor (Number (js s)))) ["1.5"; "-1.5"; "0.5"; "-0.5"; "7"]%string
    = [1; -2; 0; -1; 7].
Proof. vm_compute. reflexivity. Qed.

End JSFacts.

(* ================================================================== *)
(** * Facts about the component                                        *)
(* ================================================================== *)

Module TokenSaleFacts.
Import JS Solana TokenSaleDetails Scenarios JSFacts.

(** ** The constants *)

Lemma MIN_INVESTMENT_eq :
  MIN_INVESTMENT = S754_finite false 6044629098073146 (-79).
Proof. vm_compute. reflexivity. Qed.

Lemma MAX_INVESTMENT_eq :
  MAX_INVESTMENT = S754_finite false 5497558138880000 (-40).
Proof. vm_compute. reflexivity. Qed.

Lemma LAMPORTS_PER_SOL_eq :
  LAMPORTS_PER_SOL = S754_finite false 8388608000000000 (-23).
Proof. vm_compute. reflexivity. Qed.

(** ** The payload *)

Lemma createInstructionData_eq (lamports : number) :
  createInstructionData lamports =
    match BigInt lamports with
    | Normal v => Normal (0 :: le_bytes 8 (ToBigUint64 v))
    | Throw e => Throw e
    end.
Proof.
  unfold createInstructionData. destruct (BigInt lamports) as [v | e]; reflexivity.
Qed.

(** The lamports of an amount between zero and the maximum: the product
    is finite, its floor converts to a BigInt and fits 64 bits. *)
Lemma lamports_in_range (a : number) :
  mantissa_bounded a ->
  leb (S754_zero false) a = true ->
  leb a MAX_INVESTMENT = true ->
  BigInt (Math_floor (mul a LAMPORTS_PER_SOL))
    = Normal (Zfloor (mul a LAMPORTS_PER_SOL)) /\
  0 <= Zfloor (mul a LAMPORTS_PER_SOL) < 2 ^ 64.
Proof.
  intros Hb H0 Hmax. rewrite MAX_INVESTMENT_eq in Hmax.
  unfold mul. rewrite LAMPORTS_PER_SOL_eq.
  destruct a as [s | s | | s m e]; try discriminate.
  - cbn [SFmul]. split; [reflexivity | simpl; lia].
  - destruct s; try discriminate.
  - destruct s; [discriminate | ].
    assert (He : e <= -40).
    { unfold leb, SFleb, SFcompare in Hmax.
      destruct (e ?= -40) eqn:E; try discriminate.
      - apply Z.compare_eq in E. lia.
      - pose proof (proj1 (Z.compare_lt_iff _ _) E). lia. }
    simpl in Hb. cbn [SFmul xorb].
    destruct (binary_round_aux_cases false (Zpos (m * 8388608000000000))
                (e + -23) loc_Exact) as (m2 & e2 & Hm2 & He2 & ->); [lia | ].
    assert (Hd : Zdigits2 (Zpos (m * 8388608000000000)) <= 106).
    { apply Zdigits2_le; lia. }
    rewrite fexp_eq in He2.
    destruct m2 as [ | p | p ]; [ | | lia].
    + split; [reflexivity | simpl; lia].
    + assert (E : (e2 <=? emax - prec) = true)
        by (apply Z.leb_le; unfold emax, prec; lia).
      rewrite E. split.
      * apply BigInt_Math_floor; [simpl; lia | exact I].
      * pose proof (Zfloor_abs_le false p e2 ltac:(lia)) as Habs.
        assert (0 <= Zfloor (S754_finite false p e2)).
        { unfold Zfloor. simpl cond_Zopp. apply Z.shiftl_nonneg. lia. }
        lia.
Qed.

(** The payload of an integer that fits 64 bits. *)
Lemma payload_of_u64 (lamports : number) (v : Z) :
  BigInt lamports = Normal v ->
  0 <= v < 2 ^ 64 ->
  exists payload,
    createInstructionData lamports = Normal payload /\
    length payload = 9%nat /\
    nth_error payload 0 = Some 0 /\
    skipn 1 payload = le_bytes 8 v /\
    decode_le (skipn 1 payload) = v.
Proof.
  intros Hv Hr. rewrite createInstructionData_eq, Hv.
  assert (E : ToBigUint64 v = v) by (apply Z.mod_small; assumption).
  rewrite E. eexists. split; [reflexivity | ].
  split; [reflexivity | ]. split; [reflexivity | ]. split; [reflexivity | ].
  cbn [skipn]. rewrite <- E at 1. rewrite decode_le_bytes_u64.
  apply Z.mod_small. assumption.
Qed.

(** ** The validator *)

Lemma validateAmount_shape (env : Env) (value : js_string) (w : World) :
  exists b m, validateAmount env value w = (Normal b, with_error m w).
Proof.
  unfold validateAmount.
  repeat match goal with
         | |- context [if ?c then _ else _] => destruct c
         end; eexists _, _; reflexivity.
Qed.

(** When the validator answers [true]. *)
Lemma validateAmount_true (env : Env) (value : js_string) (w w' : World) :
  validateAmount env value w = (Normal true, w') ->
  isPresaleEnded env = false /\
  isNaN (Number value) = false /\
  leb (Number value) (S754_zero false) = false /\
  ltb (Number value) MIN_INVESTMENT = false /\
  gtb (Number value) MAX_INVESTMENT = false /\
  w' = with_error [] w.
Proof.
  unfold validateAmount.
  destruct (isPresaleEnded env); [discriminate | ].
  destruct (isNaN (Number value)); [discriminate | ].
  destruct (leb (Number value) (S754_zero false)); [discriminate | ].
  cbn [orb].
  destruct (ltb (Number value) MIN_INVESTMENT); [discriminate | ].
  destruct (gtb (Number value) MAX_INVESTMENT); [discriminate | ].
  intros [= <-]. repeat split; reflexivity.
Qed.

Lemma validateAmount_accepts (env : Env) (value : js_string) (w : World) :
  isPresaleEnded env = false ->
  isNaN (Number value) = false ->
  leb (Number value) (S754_zero false) = false ->
  ltb (Number value) MIN_INVESTMENT = false ->
  gtb (Number value) MAX_INVESTMENT = false ->
  validateAmount env value w = (Normal true, with_error [] w).
Proof.
  intros H1 H2 H3 H4 H5. unfold validateAmount.
  rewrite H1, H2, H3. cbn [orb]. rewrite H4, H5. reflexivity.
Qed.

(** Two numbers, neither of them NaN, are comparable. *)
Lemma not_ltb_leb (x y : number) :
  isNaN x = false -> isNaN y = false -> ltb y x = false -> leb x y = true.
Proof.
  unfold ltb, leb, SFltb, SFleb. rewrite (SFcompare_antisym x y).
  intros Hx Hy.
  destruct x as [ | | | sx mx ex ], y as [ | | | sy my ey ];
    try discriminate;
    destruct (SFcompare _ _) as [ [ | | ] | ] eqn:E;
    simpl; try congruence; try discriminate.
  all: exfalso; revert E; simpl;
    repeat match goal with s : bool |- _ => destruct s end; discriminate.
Qed.

Lemma not_leb_zero (x : number) :
  isNaN x = false -> leb x (S754_zero false) = false ->
  leb (S754_zero false) x = true.
Proof.
  destruct x as [ s | s | | s m e ]; try discriminate; destruct s; try discriminate;
    reflexivity.
Qed.

(** A validated amount lies between zero and the maximum. *)
Lemma validated_in_range (env : Env) (value : js_string) (w w' : World) :
  validateAmount env value w = (Normal true, w') ->
  leb (S754_zero false) (Number value) = true /\
  leb (Number value) MAX_INVESTMENT = true.
Proof.
  intros H. apply validateAmount_true in H.
  destruct H as (_ & Hnan & H0 & _ & Hmax & _). split.
  - apply not_leb_zero; assumption.
  - apply not_ltb_leb; [assumption | rewrite MAX_INVESTMENT_eq; reflexivity | exact Hmax].
Qed.

End TokenSaleFacts.

(* ================================================================== *)
(** * Properties of the validator and of the payload                   *)
(* ================================================================== *)

Module Properties.
Import JS Solana TokenSaleDetails Scenarios JSFacts TokenSaleFacts.

(** C1. Whenever [BigInt] accepts the lamports, [createInstructionData]
    returns 9 bytes of which the first is 0 and the other eight hold the
    integer modulo [2^64], least significant byte first.  For the lamports
    [Math.floor(Number(value) * LAMPORTS_PER_SOL)] of a validated amount
    those eight bytes decode to exactly that floor.  For the amount 1.5
    the payload is 0 followed by the little-endian bytes of 1500000000. *)
Theorem C1_payload_layout :
  (forall (lamports : number) (v : Z),
      BigInt lamports = Normal v ->
      exists payload,
        createInstructionData lamports = Normal payload /\
        length payload = 9%nat /\
        nth_error payload 0 = Some 0 /\
        decode_le (skipn 1 payload) = v mod 2 ^ 64) /\
  (forall (env : Env) (value : js_string) (w w' : World),
      validateAmount env value w = (Normal true, w') ->
      let product := mul (Number value) LAMPORTS_PER_SOL in
      exists payload,
        createInstructionData (Math_floor product) = Normal payload /\
        length payload = 9%nat /\
        nth_error payload 0 = Some 0 /\
        0 <= Zfloor product < 2 ^ 64 /\
        decode_le (skipn 1 payload) = Zfloor product) /\
  (fst (validateAmount env_funded (js "1.5") (fresh (typed "1.5"))) = Normal true /\
   Number (js "1.5") = number_of_decimal false 15 (-1) /\
   createInstructionData (Math_floor (mul (Number (js "1.5")) LAMPORTS_PER_SOL))
     = Normal (0 :: le_bytes 8 1500000000) /\
   le_bytes 8 1500000000 = [0; 47; 104; 89; 0; 0; 0; 0]).
Proof.
  split; [ | split].
  - intros lamports v Hv. rewrite createInstructionData_eq, Hv.
    eexists. split; [reflexivity | ].
    split; [reflexivity | ]. split; [reflexivity | ].
    cbn [skipn]. apply decode_le_bytes_u64.
  - intros env value w w' Hval product.
    destruct (validated_in_range env value w w' Hval) as [H0 Hmax].
    destruct (lamports_in_range (Number value) (Number_bounded value) H0 Hmax)
      as [Hbig Hrange].
    fold product in Hbig, Hrange.
    destruct (payload_of_u64 _ _ Hbig Hrange) as (payload & E & Hlen & Hhd & _ & Hdec).
    exists payload. repeat split; try assumption; apply Hrange.
  - repeat split; vm_compute; reflexivity.
Qed.

Lemma C1_payload_layout_witness :
  validateAmount env_funded (js "1.5") (fresh (typed "1.5"))
    = (Normal true, with_error [] (fresh (typed "1.5"))) /\
  exists payload,
    createInstructionData
      (Math_floor (mul (Number (js "1.5")) LAMPORTS_PER_SOL)) = Normal payload /\
    length payload = 9%nat /\
    nth_error payload 0 = Some 0 /\
    0 <= Zfloor (mul (Number (js "1.5")) LAMPORTS_PER_SOL) < 2 ^ 64 /\
    decode_le (skipn 1 payload) = Zfloor (mul (Number (js "1.5")) LAMPORTS_PER_SOL).
Proof.
  split; [vm_compute; reflexivity | ].
  apply (proj1 (proj2 C1_payload_layout) env_funded (js "1.5")
               (fresh (typed "1.5")) (with_error [] (fresh (typed "1.5")))).
  vm_compute. reflexivity.
Defined.

(** C2. An input whose number is NaN, is below [MIN_INVESTMENT] or is above
    [MAX_INVESTMENT] makes [validateAmount] answer [false] and store a
    non-empty error message, whether the presale has ended or not. *)
Theorem C2_out_of_range_rejected :
  forall (env : Env) (value : js_string) (w : World),
    isNaN (Number value) = true \/
    ltb (Number value) MIN_INVESTMENT = true \/
    gtb (Number value) MAX_INVESTMENT = true ->
    exists m,
      validateAmount env value w = (Normal false, with_error m w) /\ m <> [].
Proof.
  intros env value w H. unfold validateAmount.
  destruct (isPresaleEnded env).
  { eexists. split; [reflexivity | discriminate]. }
  destruct (isNaN (Number value) || leb (Number value) (S754_zero false)) eqn:E1.
  { eexists. split; [reflexivity | discriminate]. }
  destruct (ltb (Number value) MIN_INVESTMENT) eqn:E2.
  { eexists. split; [reflexivity | discriminate]. }
  destruct (gtb (Number value) MAX_INVESTMENT) eqn:E3.
  { eexists. split; [reflexivity | discriminate]. }
  apply orb_false_iff in E1. destruct E1 as [E1 _].
  destruct H as [H | [H | H] ]; congruence.
Qed.

Lemma C2_out_of_range_rejected_witness :
  gtb (Number (js "5000.01")) MAX_INVESTMENT = true /\
  exists m,
    validateAmount env_funded (js "5000.01") (fresh (typed "5000.01"))
      = (Normal false, with_error m (fresh (typed "5000.01"))) /\ m <> [].
Proof.
  split; [vm_compute; reflexivity | ].
  apply (C2_out_of_range_rejected env_funded (js "5000.01")).
  right. right. vm_compute. reflexivity.
Defined.

Lemma above_minimum_positive (x : number) :
  leb MIN_INVESTMENT x = true -> leb x (S754_zero false) = false.
Proof.
  rewrite MIN_INVESTMENT_eq.
  destruct x as [ s | s | | s m e ]; try discriminate; destruct s;
    try discriminate; reflexivity.
Qed.

(** An amount between the two limits passes every test of the
    validator. *)
Lemma in_range_accepted (env : Env) (value : js_string) (w : World) :
  isPresaleEnded env = false ->
  leb MIN_INVESTMENT (Number value) = true ->
  leb (Number value) MAX_INVESTMENT = true ->
  validateAmount env value w = (Normal true, with_error [] w).
Proof.
  intros Hopen Hmin Hmax. apply validateAmount_accepts.
  - assumption.
  - eapply leb_not_NaN_r. eassumption.
  - apply above_minimum_positive. assumption.
  - apply leb_ltb_false. assumption.
  - unfold gtb. apply leb_ltb_false. assumption.
Qed.

(** C3. While the presale is open, an input whose number lies between
    [MIN_INVESTMENT] and [MAX_INVESTMENT] makes [validateAmount] answer
    [true]; it clears the stored error and leaves the amount, and so the
    number read from it, as it was. *)
Theorem C3_in_range_accepted :
  forall (env : Env) (value : js_string) (w : World),
    isPresaleEnded env = false ->
    leb MIN_INVESTMENT (Number value) = true ->
    leb (Number value) MAX_INVESTMENT = true ->
    validateAmount env value w = (Normal true, with_error [] w) /\
    error (state (with_error [] w)) = [] /\
    amount (state (with_error [] w)) = amount (state w).
Proof.
  intros env value w Hopen Hmin Hmax. split; [ | split; reflexivity].
  apply in_range_accepted; assumption.
Qed.

Lemma C3_in_range_accepted_witness :
  validateAmount env_funded (js "1.5") (fresh (typed "1.5"))
    = (Normal true, with_error [] (fresh (typed "1.5"))) /\
  error (state (with_error [] (fresh (typed "1.5")))) = [] /\
  amount (state (with_error [] (fresh (typed "1.5")))) = js "1.5".
Proof.
  apply (C3_in_range_accepted env_funded (js "1.5") (fresh (typed "1.5")));
    vm_compute; reflexivity.
Defined.

(** C4, as the code has it.  While the presale is open, an input whose
    number is NaN or is at most zero (minus infinity included) is answered
    with the error "Please enter a valid amount"; an input whose number is
    plus infinity is answered with the error of the maximum. *)
Theorem C4_invalid_amount :
  (forall (env : Env) (value : js_string) (w : World),
      isPresaleEnded env = false ->
      isNaN (Number value) = true \/
      leb (Number value) (S754_zero false) = true ->
      validateAmount env value w
        = (Normal false, with_error msg_invalid_amount w)) /\
  (forall (env : Env) (value : js_string) (w : World),
      isPresaleEnded env = false ->
      Number value = Infinity ->
      validateAmount env value w = (Normal false, with_error msg_maximum w)).
Proof.
  split.
  - intros env value w Hopen H. unfold validateAmount. rewrite Hopen.
    assert (E : isNaN (Number value) || leb (Number value) (S754_zero false) = true).
    { apply orb_true_iff. assumption. }
    rewrite E. reflexivity.
  - intros env value w Hopen H. unfold validateAmount.
    rewrite Hopen, H, MIN_INVESTMENT_eq, MAX_INVESTMENT_eq. reflexivity.
Qed.

Lemma C4_invalid_amount_witness :
  leb (Number (js "-Infinity")) (S754_zero false) = true /\
  validateAmount env_funded (js "-Infinity") (fresh (typed "-Infinity"))
    = (Normal false, with_error msg_invalid_amount (fresh (typed "-Infinity"))) /\
  validateAmount env_funded (js "1e999") (fresh (typed "1e999"))
    = (Normal false, with_error msg_maximum (fresh (typed "1e999"))).
Proof.
  split; [vm_compute; reflexivity | ]. split.
  - apply (proj1 C4_invalid_amount env_funded (js "-Infinity")).
    + reflexivity.
    + right. vm_compute. reflexivity.
  - apply (proj2 C4_invalid_amount env_funded (js "1e999")).
    + reflexivity.
    + vm_compute. reflexivity.
Defined.

(** C4 as stated fails: the string "Infinity" does not parse to a finite
    number, yet it is answered with the error of the maximum. *)
Lemma C4_counterexample :
  Number (js "Infinity") = Infinity /\
  isPresaleEnded env_funded = false /\
  validateAmount env_funded (js "Infinity") (fresh (typed "Infinity"))
    = (Normal false, with_error msg_maximum (fresh (typed "Infinity"))) /\
  msg_maximum <> msg_invalid_amount.
Proof.
  split; [vm_compute; reflexivity | ].
  split; [reflexivity | ].
  split; [vm_compute; reflexivity | discriminate].
Qed.

(** C5, as the code has it.  [createInstructionData] makes no range
    check.  For every number that is an integer, negative or beyond 64 bits
    as it may be, it returns the 9-byte payload of that integer modulo
    [2^64]; it throws, with the RangeError of [BigInt], exactly for the
    numbers that are no integer: NaN, the infinities and the numbers with a
    fractional part. *)
Theorem C5_no_range_check :
  (forall (lamports : number) (z : Z),
      denotes lamports z ->
      createInstructionData lamports
        = Normal (0 :: le_bytes 8 (z mod 2 ^ 64)) /\
      decode_le (le_bytes 8 (z mod 2 ^ 64)) = z mod 2 ^ 64) /\
  (forall (lamports : number),
      (forall z, ~ denotes lamports z) ->
      createInstructionData lamports
        = Throw (RangeError_not_an_integer lamports)).
Proof.
  split.
  - intros lamports z Hz. apply BigInt_denotes in Hz.
    rewrite createInstructionData_eq, Hz. split; [reflexivity | ].
    apply decode_le_bytes_u64.
  - intros lamports H. rewrite createInstructionData_eq, (BigInt_throws _ H).
    reflexivity.
Qed.

Lemma C5_no_range_check_witness :
  (denotes (Number (js "-1")) (-1) /\
   createInstructionData (Number (js "-1"))
     = Normal (0 :: le_bytes 8 (2 ^ 64 - 1))) /\
  ((forall z, ~ denotes (Number (js "1.5")) z) /\
   createInstructionData (Number (js "1.5"))
     = Throw (RangeError_not_an_integer (Number (js "1.5")))).
Proof.
  assert (H1 : denotes (Number (js "-1")) (-1)) by (vm_compute; reflexivity).
  assert (H2 : forall z, ~ denotes (Number (js "1.5")) z).
  { assert (E : Number (js "1.5") = S754_finite false 6755399441055744 (-52))
      by (vm_compute; reflexivity).
    intros z. rewrite E. unfold denotes.
    change (0 <=? -52) with false. cbv iota.
    change (2 ^ (- -52)) with 4503599627370496. simpl cond_Zopp. lia. }
  split; split; try assumption.
  - apply (proj1 C5_no_range_check (Number (js "-1")) (-1) H1).
  - apply (proj2 C5_no_range_check (Number (js "1.5")) H2).
Defined.

(** C5 as stated fails: for the integers -1 and 2^64 a payload is
    returned and nothing is thrown. *)
Lemma C5_counterexample :
  (Zfloor (Number (js "-1")) = -1 /\
   createInstructionData (Number (js "-1"))
     = Normal [0; 255; 255; 255; 255; 255; 255; 255; 255]) /\
  (Zfloor (Number (js "18446744073709551616")) = 2 ^ 64 /\
   createInstructionData (Number (js "18446744073709551616"))
     = Normal [0; 0; 0; 0; 0; 0; 0; 0; 0]).
Proof. repeat split; vm_compute; reflexivity. Qed.

(** C6. For every binary64 amount between zero and [MAX_INVESTMENT] the
    lamports [floor(a * LAMPORTS_PER_SOL)] are encoded into bytes 1 to 8 of
    the payload, and reading these bytes back, least significant first,
    gives the same integer. *)
Theorem C6_round_trip :
  forall (a : number),
    valid_binary prec emax a = true ->
    leb (S754_zero false) a = true ->
    leb a MAX_INVESTMENT = true ->
    let lamports := Zfloor (mul a LAMPORTS_PER_SOL) in
    exists payload,
      createInstructionData (Math_floor (mul a LAMPORTS_PER_SOL)) = Normal payload /\
      skipn 1 payload = le_bytes 8 lamports /\
      decode_le (skipn 1 payload) = lamports.
Proof.
  intros a Hvalid H0 Hmax lamports.
  destruct (lamports_in_range a (valid_binary_bounded a Hvalid) H0 Hmax)
    as [Hbig Hrange].
  destruct (payload_of_u64 _ _ Hbig Hrange) as (payload & E & _ & _ & Hskip & Hdec).
  exists payload. repeat split; assumption.
Qed.

Lemma C6_round_trip_witness :
  valid_binary prec emax MAX_INVESTMENT = true /\
  Zfloor (mul MAX_INVESTMENT LAMPORTS_PER_SOL) = 5000000000000 /\
  exists payload,
    createInstructionData (Math_floor (mul MAX_INVESTMENT LAMPORTS_PER_SOL))
      = Normal payload /\
    skipn 1 payload = le_bytes 8 (Zfloor (mul MAX_INVESTMENT LAMPORTS_PER_SOL)) /\
    decode_le (skipn 1 payload) = Zfloor (mul MAX_INVESTMENT LAMPORTS_PER_SOL).
Proof.
  split; [vm_compute; reflexivity | ].
  split; [vm_compute; reflexivity | ].
  apply (C6_round_trip MAX_INVESTMENT); vm_compute; reflexivity.
Defined.

Lemma trimStart_whitespace (s : js_string) :
  Forall (fun c => is_StrWhiteSpaceChar c = true) s -> trimStart s = [].
Proof.
  induction 1 as [ | c r Hc _ IH ]; simpl; [reflexivity | ].
  rewrite Hc. assumption.
Qed.

(** C10. [Number] coerces the empty string and every string of white
    space to zero, which [validateAmount] answers with "Please enter a
    valid amount".  Whatever its notation, a string whose number lies
    between the limits is accepted while the presale is open; so are
    "0x10" and "1e2", which are read as 16 and 100. *)
Theorem C10_number_coercion :
  (forall (env : Env) (value : js_string) (w : World),
      isPresaleEnded env = false ->
      Forall (fun c => is_StrWhiteSpaceChar c = true) value ->
      Number value = S754_zero false /\
      validateAmount env value w
        = (Normal false, with_error msg_invalid_amount w)) /\
  (forall (env : Env) (value : js_string) (w : World),
      isPresaleEnded env = false ->
      leb MIN_INVESTMENT (Number value) = true ->
      leb (Number value) MAX_INVESTMENT = true ->
      validateAmount env value w = (Normal true, with_error [] w)) /\
  (Number (js "0x10") = number_of_decimal false 16 0 /\
   leb MIN_INVESTMENT (Number (js "0x10")) = true /\
   leb (Number (js "0x10")) MAX_INVESTMENT = true) /\
  (Number (js "1e2") = number_of_decimal false 100 0 /\
   leb MIN_INVESTMENT (Number (js "1e2")) = true /\
   leb (Number (js "1e2")) MAX_INVESTMENT = true).
Proof.
  split; [ | split; [ | split] ].
  - intros env value w Hopen Hws.
    assert (E : Number value = S754_zero false).
    { unfold Number, StringToNumber, trim.
      rewrite (trimStart_whitespace value Hws). reflexivity. }
    split; [assumption | ].
    unfold validateAmount. rewrite Hopen, E. reflexivity.
  - intros env value w. apply in_range_accepted.
  - repeat split; vm_compute; reflexivity.
  - repeat split; vm_compute; reflexivity.
Qed.

Lemma C10_number_coercion_witness :
  (Number (js "   ") = S754_zero false /\
   validateAmount env_funded (js "   ") (fresh (typed "   "))
     = (Normal false, with_error msg_invalid_amount (fresh (typed "   ")))) /\
  validateAmount env_funded (js "0x10") (fresh (typed "0x10"))
    = (Normal true, with_error [] (fresh (typed "0x10"))) /\
  validateAmount env_funded (js "1e2") (fresh (typed "1e2"))
    = (Normal true, with_error [] (fresh (typed "1e2"))).
Proof.
  split; [ | split].
  - apply (proj1 C10_number_coercion env_funded (js "   ") (fresh (typed "   "))).
    + reflexivity.
    + repeat constructor.
  - apply (proj1 (proj2 C10_number_coercion) env_funded (js "0x10"));
      vm_compute; reflexivity.
  - apply (proj1 (proj2 C10_number_coercion) env_funded (js "1e2"));
      vm_compute; reflexivity.
Defined.

End Properties.

(* ================================================================== *)
(** * Properties of a submission run                                   *)
(* ================================================================== *)

Module RunProperties.
Import JS Solana TokenSaleDetails Scenarios JSFacts TokenSaleFacts.

(** Proofs about [handleInvest] follow its control flow: the run is
    unfolded and split at every answer of a collaborator. *)

Ltac unfold_run :=
  cbv [run_handleInvest handleInvest invest_body invest_catch
       bind ret throw lift try_catch try_finally emit modify
       setAmount setError setIsProcessing addNotification addDeposit
       new_PublicKey with_error succeeded lamports_of fresh
       state log amount error isProcessing fst snd negb app].

Ltac case_step :=
  match goal with
  | |- context [match ?x with _ => _ end] =>
      lazymatch x with
      | context [match _ with _ => _ end] => fail
      | _ => destruct x eqn:?; cbv beta iota
      end
  end.

Ltac observe :=
  cbn [existsb is_success is_signTransaction orb In] in *.

Ltac split_ors :=
  repeat match goal with
         | H : _ \/ _ |- _ => destruct H
         | H : False |- _ => contradiction
         end.

Ltac start_run env st :=
  let a := fresh "a" in
  let er := fresh "er" in
  let ip := fresh "ip" in
  let wa := fresh "wa" in
  let b := fresh "b" in
  let m := fresh "m" in
  let E := fresh "E" in
  destruct st as [a er ip];
  unfold run_handleInvest, handleInvest;
  destruct (connected env) as [wa | ] eqn:?;
  [ unfold_run;
    destruct (validateAmount_shape env a
                {| state := {| amount := a; error := er; isProcessing := ip |};
                   log := [] |}) as (b & m & E);
    rewrite E; unfold_run; destruct b
  | unfold_run ].

Ltac run_cases env st := start_run env st; observe; repeat (case_step; observe).

(** C7. In a run where the network client answers the balance query with
    less than the lamports required, the calls made are [getConnection],
    the balance query and the error notification "Insufficient balance
    ...", and no other: [signTransaction] is not called, nothing succeeds,
    the amount stays and the processing flag is cleared. *)
Theorem C7_insufficient_balance_aborts :
  forall (env : Env) (st : State) (pk : PublicKey) (balance : number),
    In (call_getBalance pk (Normal balance)) (log (run_handleInvest env st)) ->
    ltb balance (lamports_of st) = true ->
    log (run_handleInvest env st)
      = [call_getConnection;
         call_getBalance pk (Normal balance);
         call_addNotification lvl_error
           (msg_insufficient (lamports_of st) balance)] /\
    existsb is_signTransaction (log (run_handleInvest env st)) = false /\
    succeeded (run_handleInvest env st) = false /\
    amount (state (run_handleInvest env st)) = amount st /\
    isProcessing (state (run_handleInvest env st)) = false.
Proof.
  intros env st pk balance. run_cases env st.
  all: intros Hin Hlt; split_ors; try discriminate.
  all: match goal with
       | H : call_getBalance _ _ = call_getBalance _ _ |- _ =>
           injection H as ? ?; subst
       end.
  all: try congruence.
  all: repeat split; reflexivity.
Qed.

Lemma C7_insufficient_balance_aborts_witness :
  ltb (number_of_decimal false 1000 0) (lamports_of (typed "1.5")) = true /\
  log (run_handleInvest env_poor (typed "1.5"))
    = [call_getConnection;
       call_getBalance {| toBase58 := investor |}
                       (Normal (number_of_decimal false 1000 0));
       call_addNotification lvl_error
         (msg_insufficient (lamports_of (typed "1.5"))
                           (number_of_decimal false 1000 0))] /\
  existsb is_signTransaction (log (run_handleInvest env_poor (typed "1.5"))) = false.
Proof.
  split; [vm_compute; reflexivity | ].
  assert (H := C7_insufficient_balance_aborts env_poor (typed "1.5")
                 {| toBase58 := investor |} (number_of_decimal false 1000 0)).
  destruct H as (Hlog & Hsign & _).
  - vm_compute. right. left. reflexivity.
  - vm_compute. reflexivity.
  - split; assumption.
Defined.

(** C8. A run that succeeds (it notifies the success) has recorded the
    deposit of [Number(amount)] through [addDeposit] and has cleared the
    amount; a run that does not succeed leaves the amount as it was and
    records no deposit.  Both kinds of run exist. *)
Theorem C8_amount_cleared_on_success_only :
  (forall (env : Env) (st : State),
      if succeeded (run_handleInvest env st)
      then amount (state (run_handleInvest env st)) = [] /\
           In (call_addDeposit (Number (amount st)))
              (log (run_handleInvest env st))
      else amount (state (run_handleInvest env st)) = amount st /\
           forall x, ~ In (call_addDeposit x) (log (run_handleInvest env st))) /\
  succeeded (run_handleInvest env_funded (typed "1.5")) = true /\
  succeeded (run_handleInvest env_declined (typed "1.5")) = false.
Proof.
  split; [ | split; vm_compute; reflexivity].
  intros env st. run_cases env st.
  all: split; [reflexivity | ].
  all: try (intros x Hin; observe; split_ors; discriminate).
  all: auto 12.
Qed.

Lemma C8_amount_cleared_on_success_only_witness :
  amount (state (run_handleInvest env_funded (typed "1.5"))) = [] /\
  In (call_addDeposit (Number (js "1.5")))
     (log (run_handleInvest env_funded (typed "1.5"))) /\
  amount (state (run_handleInvest env_declined (typed "1.5"))) = js "1.5".
Proof.
  assert (Hok := proj1 C8_amount_cleared_on_success_only env_funded (typed "1.5")).
  assert (Hko := proj1 C8_amount_cleared_on_success_only env_declined (typed "1.5")).
  replace (succeeded (run_handleInvest env_funded (typed "1.5"))) with true in Hok
    by (vm_compute; reflexivity).
  replace (succeeded (run_handleInvest env_declined (typed "1.5"))) with false in Hko
    by (vm_compute; reflexivity).
  destruct Hok as [Hclear Hdep]. destruct Hko as [Hkeep _].
  split; [exact Hclear | split; [exact Hdep | exact Hkeep] ].
Defined.

(** C9. A run that reaches [setIsProcessing(true)], that is a run with a
    connected wallet and a valid amount, ends with the flag cleared,
    whatever any collaborator answers or throws; and a run started with the
    flag cleared always ends with the flag cleared. *)
Theorem C9_processing_flag_cleared :
  (forall (env : Env) (st : State) (wa : js_string),
      connected env = Some wa ->
      fst (validateAmount env (amount st) (fresh st)) = Normal true ->
      isProcessing (state (run_handleInvest env st)) = false) /\
  (forall (env : Env) (st : State),
      isProcessing st = false ->
      isProcessing (state (run_handleInvest env st)) = false).
Proof.
  split.
  - intros env st wa0 Hc. revert Hc. run_cases env st.
    all: intros Hc Hv; try reflexivity; try discriminate.
    all: match goal with
         | E : validateAmount _ _ _ = _ |- _ => rewrite E in Hv; discriminate
         end.
  - intros env st. run_cases env st.
    all: intros Hip; try reflexivity; assumption.
Qed.

Lemma C9_processing_flag_cleared_witness :
  connected env_declined = Some investor /\
  fst (validateAmount env_declined (js "1.5") (fresh (typed "1.5"))) = Normal true /\
  isProcessing (state (run_handleInvest env_declined (typed "1.5"))) = false.
Proof.
  split; [reflexivity | ]. split; [vm_compute; reflexivity | ].
  apply (proj1 C9_processing_flag_cleared env_declined (typed "1.5") investor).
  - reflexivity.
  - vm_compute. reflexivity.
Defined.

End RunProperties.

(* ================================================================== *)
(** * The lamports and the payload of an accepted amount              *)
(* ================================================================== *)

Module LamportsBounds.
Import JS Solana TokenSaleDetails Scenarios Render JSFacts TokenSaleFacts.

(** What [binary_round_aux] does to a mantissa: two right shifts, by [k1]
    and [k2] bits, with at most one unit added in between. *)
Lemma binary_round_aux_shape (s : bool) (m e : Z) (l : location) :
  0 <= m ->
  exists k1 k2 r,
    k1 = Z.max (fexp prec emax (Zdigits2 m + e) - e) 0 /\
    0 <= k2 /\
    e + k1 + k2 <= Z.max (e + k1 + 1) (-1074) /\
    m / 2 ^ k1 <= r <= m / 2 ^ k1 + 1 /\
    binary_round_aux prec emax s m e l =
      match r / 2 ^ k2 with
      | Z0 => S754_zero s
      | Zpos p => if e + k1 + k2 <=? emax - prec
                  then S754_finite s p (e + k1 + k2)
                  else S754_infinity s
      | Zneg _ => S754_nan
      end.
Proof.
  intros Hm. unfold binary_round_aux.
  destruct (shr_fexp_spec m e l Hm) as (Hm1 & He1 & Hb1).
  destruct (shr_fexp prec emax m e l) as [r1 e1]. simpl fst in *. simpl snd in *.
  set (m1 := round_nearest_even (shr_m r1) (loc_of_shr_record r1)).
  assert (Hr : shr_m r1 <= m1 <= shr_m r1 + 1) by apply round_nearest_even_bounds.
  assert (Hm1' : 0 <= m1) by lia.
  destruct (shr_fexp_spec m1 e1 loc_Exact Hm1') as (Hm2 & He2 & Hb2).
  destruct (shr_fexp prec emax m1 e1 loc_Exact) as [r2 e2].
  simpl fst in *. simpl snd in *.
  exists (Z.max (fexp prec emax (Zdigits2 m + e) - e) 0),
         (Z.max (fexp prec emax (Zdigits2 m1 + e1) - e1) 0), m1.
  split; [reflexivity | ]. split; [lia | ]. split.
  - assert (Hd : Zdigits2 m1 <= 54) by (apply Zdigits2_le; lia).
    rewrite <- He1. rewrite (fexp_eq (Zdigits2 m1 + e1)). lia.
  - split; [lia | ]. rewrite <- He1, <- He2, <- Hm2. reflexivity.
Qed.

(** The limits as integers: a binary64 amount of at least
    [MIN_INVESTMENT] has a mantissa [m] and an exponent [e] with
    [2^(-e) <= m * 10^8]; one of at most [MAX_INVESTMENT] has
    [m <= 5000 * 2^(-e)]. *)
Lemma above_minimum_value (s : bool) (m : positive) (e : Z) :
  valid_binary prec emax (S754_finite s m e) = true ->
  leb MIN_INVESTMENT (S754_finite s m e) = true ->
  s = false /\ -79 <= e /\ 2 ^ (- e) <= Zpos m * 100000000.
Proof.
  intros Hv Hmin. rewrite MIN_INVESTMENT_eq in Hmin.
  destruct s; [discriminate | ]. split; [reflexivity | ].
  unfold leb, SFleb, SFcompare in Hmin.
  destruct (-79 ?= e) eqn:E.
  - apply Z.compare_eq in E. subst e. split; [lia | ].
    assert (6044629098073146 <= m)%positive.
    { unfold Pos.le, Pos.compare. intros Ec. rewrite Ec in Hmin. discriminate. }
    apply Pos2Z.pos_le_pos in H. clear Hmin Hv.
    change (2 ^ (- -79)) with 604462909807314587353088. lia.
  - pose proof (proj1 (Z.compare_lt_iff _ _) E) as He. split; [lia | ].
    unfold valid_binary, bounded, canonical_mantissa in Hv.
    apply andb_true_iff in Hv. destruct Hv as [Hc Hle].
    apply Z.eqb_eq in Hc. apply Z.leb_le in Hle. rewrite fexp_eq in Hc.
    assert (Hd : Zpos (digits2_pos m) = 53) by lia.
    destruct (digits2_pos_bounds m) as [Hlo _]. rewrite Hd in Hlo.
    change (2 ^ (53 - 1)) with 4503599627370496 in Hlo.
    destruct (Z_le_gt_dec 0 e) as [He0 | He0].
    + assert (2 ^ (- e) <= 1); [ | lia].
      destruct (Z.eq_dec e 0) as [-> | ]; [simpl; lia | ].
      rewrite Z.pow_neg_r by lia. lia.
    + assert (2 ^ (- e) <= 2 ^ 78) by (apply Z.pow_le_mono_r; lia).
      change (2 ^ 78) with 302231454903657293676544 in *. lia.
  - discriminate.
Qed.

Lemma below_maximum_value (m : positive) (e : Z) :
  valid_binary prec emax (S754_finite false m e) = true ->
  leb (S754_finite false m e) MAX_INVESTMENT = true ->
  e <= -40 /\ Zpos m <= 5000 * 2 ^ (- e).
Proof.
  intros Hv Hmax. rewrite MAX_INVESTMENT_eq in Hmax.
  pose proof (valid_binary_bounded _ Hv) as Hb. unfold mantissa_bounded in Hb.
  change (2 ^ 53) with 9007199254740992 in Hb.
  unfold leb, SFleb, SFcompare in Hmax.
  destruct (e ?= -40) eqn:E.
  - apply Z.compare_eq in E. subst e. split; [lia | ].
    assert (m <= 5497558138880000)%positive.
    { unfold Pos.le, Pos.compare. intros Ec. rewrite Ec in Hmax. discriminate. }
    apply Pos2Z.pos_le_pos in H. clear Hmax Hv.
    change (2 ^ (- -40)) with 1099511627776. lia.
  - pose proof (proj1 (Z.compare_lt_iff _ _) E) as He. split; [lia | ].
    assert (2 ^ 41 <= 2 ^ (- e)) by (apply Z.pow_le_mono_r; lia).
    change (2 ^ 41) with 2199023255552 in *. lia.
  - discriminate.
Qed.

(** The lamports of a binary64 amount between the two limits lie between
    10 and 5 000 000 000 000. *)
Lemma lamports_between (a : number) :
  valid_binary prec emax a = true ->
  leb MIN_INVESTMENT a = true ->
  leb a MAX_INVESTMENT = true ->
  10 <= Zfloor (mul a LAMPORTS_PER_SOL) <= 5000000000000.
Proof.
  intros Hv Hmin Hmax.
  destruct a as [s | s | | s m e].
  - rewrite MIN_INVESTMENT_eq in Hmin. discriminate.
  - rewrite MAX_INVESTMENT_eq in Hmax. rewrite MIN_INVESTMENT_eq in Hmin.
    destruct s; discriminate.
  - discriminate.
  - destruct (above_minimum_value s m e Hv Hmin) as (-> & Hlo_e & Hlo).
    destruct (below_maximum_value m e Hv Hmax) as (Hhi_e & Hhi).
    unfold mul. rewrite LAMPORTS_PER_SOL_eq. cbn [SFmul xorb].
    set (M := Zpos (m * 8388608000000000)).
    set (E := e + -23).
    assert (HM : M = Zpos m * 8388608000000000) by (unfold M; lia).
    assert (HP : 0 < 2 ^ (- e)) by (apply Z.pow_pos_nonneg; lia).
    assert (HPE : 2 ^ (- E) = 8388608 * 2 ^ (- e)).
    { unfold E. replace (- (e + -23)) with (23 + - e) by lia.
      rewrite Z.pow_add_r by lia. reflexivity. }
    (* the exact product lies between 10 and 5e12 *)
    assert (Hlow : 10 * 2 ^ (- E) <= M) by lia.
    assert (Hupp : M <= 5000000000000 * 2 ^ (- E)) by lia.
    assert (HE0 : 0 < 2 ^ (- E)) by lia.
    destruct (binary_round_aux_shape false M E loc_Exact ltac:(lia))
      as (k1 & k2 & r & Hk1 & Hk2 & He2 & Hr & ->).
    assert (Hk1' : 0 <= k1) by lia.
    (* the first shift stops at an exponent of at most -10 *)
    assert (He1 : E + k1 <= -10).
    { assert (Hd : Zdigits2 M <= 43 - E).
      { apply Zdigits2_le; try lia.
        replace (43 - E) with (43 + - E) by lia. rewrite Z.pow_add_r by lia.
        change (2 ^ 43) with 8796093022208. nia. }
      rewrite fexp_eq in Hk1. unfold E in *. lia. }
    set (e2 := E + k1 + k2) in *.
    set (e1 := E + k1) in *.
    assert (He2' : e2 <= -9) by lia.
    assert (HA : 0 < 2 ^ k1) by (apply Z.pow_pos_nonneg; lia).
    assert (HK : 0 < 2 ^ k2) by (apply Z.pow_pos_nonneg; lia).
    assert (HC : 0 < 2 ^ (- e2)) by (apply Z.pow_pos_nonneg; lia).
    assert (HAB : 2 ^ (- E) = 2 ^ k1 * (2 ^ k2 * 2 ^ (- e2))).
    { rewrite <- !Z.pow_add_r by lia. f_equal. unfold e2. lia. }
    assert (HB : 1024 <= 2 ^ k2 * 2 ^ (- e2)).
    { rewrite <- Z.pow_add_r by lia. change 1024 with (2 ^ 10).
      apply Z.pow_le_mono_r; unfold e2, e1 in *; lia. }
    clearbody e1.
    set (A := 2 ^ k1) in *. set (K := 2 ^ k2) in *. set (C := 2 ^ (- e2)) in *.
    assert (Hq1 : 10 * (K * C) <= M / A).
    { apply Z.div_le_lower_bound; [assumption | ]. nia. }
    assert (Hq2 : M / A <= 5000000000000 * (K * C)).
    { apply Z.div_le_upper_bound; [assumption | ]. nia. }
    assert (Hp1 : 10 * C <= r / K).
    { apply Z.div_le_lower_bound; [assumption | ]. nia. }
    assert (Hp2 : r / K * K <= r).
    { rewrite Z.mul_comm. apply Z.mul_div_le. assumption. }
    destruct (r / K) as [ | p | p ] eqn:Ep; try lia.
    assert (Efin : (e2 <=? emax - prec) = true)
      by (apply Z.leb_le; unfold emax, prec; lia).
    rewrite Efin. unfold Zfloor. simpl cond_Zopp.
    rewrite Z.shiftl_div_pow2 by lia. fold C. split.
    + apply Z.div_le_lower_bound; [assumption | ]. lia.
    + assert (Zpos p / C < 5000000000001); [ | lia].
      apply Z.div_lt_upper_bound; [assumption | ].
      destruct (Z_lt_ge_dec (Zpos p) (C * 5000000000001)) as [ | Hge];
        [assumption | exfalso].
      assert (C * 5000000000001 * K <= Zpos p * K)
        by (apply Z.mul_le_mono_nonneg_r; lia).
      lia.
Qed.

(** The limits an accepted amount lies between. *)
Lemma validated_between (env : Env) (value : js_string) (w w' : World) :
  validateAmount env value w = (Normal true, w') ->
  isPresaleEnded env = false /\
  leb MIN_INVESTMENT (Number value) = true /\
  leb (Number value) MAX_INVESTMENT = true /\
  w' = with_error [] w.
Proof.
  intros H. apply validateAmount_true in H.
  destruct H as (Hopen & Hnan & H0 & Hmin & Hmax & ->).
  repeat split; try assumption.
  - apply not_ltb_leb; [rewrite MIN_INVESTMENT_eq; reflexivity | assumption | exact Hmin].
  - apply not_ltb_leb; [assumption | rewrite MAX_INVESTMENT_eq; reflexivity | exact Hmax].
Qed.

(** The lamports and the payload of an accepted amount. *)
Lemma validated_lamports (env : Env) (value : js_string) (w w' : World) :
  validateAmount env value w = (Normal true, w') ->
  10 <= Zfloor (mul (Number value) LAMPORTS_PER_SOL) <= 5000000000000 /\
  BigInt (Math_floor (mul (Number value) LAMPORTS_PER_SOL))
    = Normal (Zfloor (mul (Number value) LAMPORTS_PER_SOL)) /\
  createInstructionData (Math_floor (mul (Number value) LAMPORTS_PER_SOL))
    = Normal (0 :: le_bytes 8 (Zfloor (mul (Number value) LAMPORTS_PER_SOL))).
Proof.
  intros H.
  destruct (validated_between env value w w' H) as (_ & Hmin & Hmax & _).
  destruct (validated_in_range env value w w' H) as [H0 _].
  pose proof (lamports_between (Number value) (Number_valid value) Hmin Hmax) as Hb.
  destruct (lamports_in_range (Number value) (Number_bounded value) H0 Hmax)
    as [Hbig Hr].
  split; [assumption | ]. split; [assumption | ].
  rewrite createInstructionData_eq, Hbig. unfold ToBigUint64.
  rewrite Z.mod_small by assumption. reflexivity.
Qed.

(** X2. The lamports computed from an accepted amount are an integer
    between 10 and 5 000 000 000 000, which [BigInt] converts without a
    RangeError: an accepted amount never yields an empty or an oversized
    transfer. *)
Theorem X2_validated_lamports_bounds :
  forall (env : Env) (value : js_string) (w w' : World),
    validateAmount env value w = (Normal true, w') ->
    10 <= Zfloor (mul (Number value) LAMPORTS_PER_SOL) <= 5000000000000 /\
    BigInt (Math_floor (mul (Number value) LAMPORTS_PER_SOL))
      = Normal (Zfloor (mul (Number value) LAMPORTS_PER_SOL)).
Proof.
  intros env value w w' H.
  destruct (validated_lamports env value w w' H) as (Hb & Hbig & _).
  split; assumption.
Qed.

Lemma X2_validated_lamports_bounds_witness :
  validateAmount env_funded (js "0.00000001") (fresh (typed "0.00000001"))
    = (Normal true, with_error [] (fresh (typed "0.00000001"))) /\
  Zfloor (mul (Number (js "0.00000001")) LAMPORTS_PER_SOL) = 10 /\
  10 <= Zfloor (mul (Number (js "0.00000001")) LAMPORTS_PER_SOL) <= 5000000000000.
Proof.
  split; [vm_compute; reflexivity | ]. split; [vm_compute; reflexivity | ].
  apply (X2_validated_lamports_bounds env_funded (js "0.00000001")
           (fresh (typed "0.00000001"))
           (with_error [] (fresh (typed "0.00000001")))).
  vm_compute. reflexivity.
Defined.

Lemma le_bytes_injective (n : nat) (u v : Z) :
  0 <= u < 256 ^ Z.of_nat n -> 0 <= v < 256 ^ Z.of_nat n ->
  le_bytes n u = le_bytes n v -> u = v.
Proof.
  intros Hu Hv E.
  rewrite <- (Z.mod_small u (256 ^ Z.of_nat n)) by assumption.
  rewrite <- (Z.mod_small v (256 ^ Z.of_nat n)) by assumption.
  rewrite <- !decode_le_bytes, E. reflexivity.
Qed.

Lemma le_bytes_range (n : nat) :
  forall v, Forall (fun b => 0 <= b < 256) (le_bytes n v).
Proof.
  induction n as [ | n IH ]; intros v; simpl; constructor.
  - apply Z.mod_pos_bound. lia.
  - apply IH.
Qed.

(** X3. Every payload is made of bytes, and within the unsigned 64-bit
    range the payload determines the lamports: two integers that get the
    same payload are equal. *)
Theorem X3_payload_injective :
  forall (x y : number) (u v : Z) (p : Uint8Array),
    denotes x u -> denotes y v ->
    0 <= u < 2 ^ 64 -> 0 <= v < 2 ^ 64 ->
    createInstructionData x = Normal p ->
    createInstructionData y = Normal p ->
    u = v /\ Forall (fun b => 0 <= b < 256) p.
Proof.
  intros x y u v p Hx Hy Hu Hv Ex Ey.
  apply BigInt_denotes in Hx. apply BigInt_denotes in Hy.
  rewrite createInstructionData_eq, Hx in Ex.
  rewrite createInstructionData_eq, Hy in Ey.
  unfold ToBigUint64 in *. rewrite Z.mod_small in Ex, Ey by assumption.
  remember (le_bytes 8 u) as bu eqn:Ebu. remember (le_bytes 8 v) as bv eqn:Ebv.
  injection Ex as <-. injection Ey as ->. split.
  - apply (le_bytes_injective 8 u v); [exact Hu | exact Hv | congruence].
  - constructor; [lia | rewrite Ebu; apply le_bytes_range].
Qed.

Lemma X3_payload_injective_witness :
  createInstructionData (Number (js "1500000000"))
    = Normal [0; 0; 47; 104; 89; 0; 0; 0; 0] /\
  (1500000000 = 1500000000 /\
   Forall (fun b => 0 <= b < 256) [0; 0; 47; 104; 89; 0; 0; 0; 0]).
Proof.
  split; [vm_compute; reflexivity | ].
  apply (X3_payload_injective (Number (js "1500000000")) (Number (js "1500000000"))
           1500000000 1500000000 [0; 0; 47; 104; 89; 0; 0; 0; 0]);
    try (vm_compute; reflexivity); lia.
Defined.

End LamportsBounds.

(* ================================================================== *)
(** * The handlers seen from the form                                  *)
(* ================================================================== *)

Module FormProperties.
Import JS Solana TokenSaleDetails Scenarios Render JSFacts TokenSaleFacts.
Import LamportsBounds RunProperties.

(** The answer and the message of the validator depend on the presale flag
    and on the text only. *)
Lemma validateAmount_independent (env : Env) (value : js_string) (w1 w2 : World) :
  fst (validateAmount env value w1) = fst (validateAmount env value w2) /\
  error (state (snd (validateAmount env value w1)))
    = error (state (snd (validateAmount env value w2))).
Proof.
  unfold validateAmount.
  repeat match goal with
         | |- context [if ?c then _ else _] => destruct c
         end; split; reflexivity.
Qed.

(** The validator empties the error exactly when it accepts. *)
Lemma validateAmount_error_empty (env : Env) (value : js_string) (w : World) :
  is_empty_message (error (state (snd (validateAmount env value w)))) = true <->
  fst (validateAmount env value w) = Normal true.
Proof.
  unfold validateAmount.
  repeat match goal with
         | |- context [if ?c then _ else _] => destruct c
         end; cbn; split; intros H; try reflexivity; discriminate.
Qed.

(** What typing a text leaves behind. *)
Lemma after_typing_facts (env : Env) (value : js_string) (w : World) :
  fst (handleAmountChange env value w) = Normal tt /\
  amount (state (after_typing env value w)) = value /\
  isProcessing (state (after_typing env value w)) = isProcessing (state w) /\
  log (after_typing env value w) = log w /\
  error (state (after_typing env value w))
    = error (state (snd (validateAmount env value w))).
Proof.
  unfold after_typing, handleAmountChange, validateAmount.
  repeat match goal with
         | |- context [if ?c then _ else _] => destruct c
         end; repeat split; reflexivity.
Qed.

(** X1. Typing never fails and calls no collaborator: the amount cell
    holds exactly the text typed, accepted or not, the processing flag and
    the log stay as they were, and the error cell holds the validator's
    message for that text, which is empty exactly when the text is
    accepted. *)
Theorem X1_typing_keeps_input :
  forall (env : Env) (value : js_string) (w : World),
    fst (handleAmountChange env value w) = Normal tt /\
    amount (state (after_typing env value w)) = value /\
    isProcessing (state (after_typing env value w)) = isProcessing (state w) /\
    log (after_typing env value w) = log w /\
    error (state (after_typing env value w))
      = error (state (snd (validateAmount env value w))) /\
    (is_empty_message (error (state (after_typing env value w))) = true <->
     fst (validateAmount env value w) = Normal true).
Proof.
  intros env value w.
  destruct (after_typing_facts env value w) as (H1 & H2 & H3 & H4 & H5).
  repeat (split; [assumption | ]).
  rewrite H5. apply validateAmount_error_empty.
Qed.

(** X14. After a rejected text has been typed, a click on Invest in that
    render notifies exactly the message shown under the field, which is
    not empty, and calls nothing else. *)
Theorem X14_rejected_amount_notified :
  forall (env : Env) (value : js_string) (w : World) (wa : js_string),
    connected env = Some wa ->
    fst (validateAmount env value w) = Normal false ->
    log (run_handleInvest env (state (after_typing env value w)))
      = [call_addNotification lvl_error
           (error (state (after_typing env value w)))] /\
    error_paragraph (render env (state (after_typing env value w)))
      = Some (error (state (after_typing env value w))).
Proof.
  intros env value w wa Hc Hv.
  destruct (after_typing_facts env value w) as (_ & Ha & _ & _ & He).
  set (st := state (after_typing env value w)) in *.
  split.
  - unfold run_handleInvest, handleInvest. rewrite Hc.
    destruct (validateAmount_independent env (amount st) w
                {| state := st; log := [] |}) as [Hf _].
    rewrite Ha in *. rewrite Hv in Hf.
    destruct (validateAmount_shape env value {| state := st; log := [] |})
      as (b & m & E).
    rewrite E in Hf. simpl in Hf. injection Hf as <-.
    unfold bind at 1. rewrite E. reflexivity.
  - unfold render. cbn [error_paragraph].
    destruct (is_empty_message (error st)) eqn:Ee; [ | reflexivity].
    rewrite He in Ee. apply validateAmount_error_empty in Ee. congruence.
Qed.

Lemma X14_rejected_amount_notified_witness :
  log (run_handleInvest env_funded
         (state (after_typing env_funded (js "0") (fresh mounted))))
    = [call_addNotification lvl_error msg_invalid_amount] /\
  error_paragraph (render env_funded
                     (state (after_typing env_funded (js "0") (fresh mounted))))
    = Some msg_invalid_amount.
Proof.
  destruct (X14_rejected_amount_notified env_funded (js "0") (fresh mounted) investor)
    as [Hlog Hpar].
  - reflexivity.
  - vm_compute. reflexivity.
  - split.
    + rewrite Hlog. vm_compute. reflexivity.
    + rewrite Hpar. vm_compute. reflexivity.
Defined.

End FormProperties.

(* ================================================================== *)
(** * The submission protocol                                          *)
(* ================================================================== *)

Module RunProtocol.
Import JS Solana TokenSaleDetails Scenarios Render JSFacts TokenSaleFacts.
Import LamportsBounds RunProperties.

(** In a run that passed the validator, the payload is the one of the
    lamports: the branch in which [createInstructionData] throws is empty. *)
Ltac payload_facts :=
  try match goal with
      | E : validateAmount ?env ?a ?w = (Normal true, ?w') |- _ =>
          let HL := fresh "HL" in
          let HB := fresh "HB" in
          let Hb := fresh "Hb" in
          let Hp := fresh "Hp" in
          let Ho := fresh "Ho" in
          let Hmin := fresh "Hmin" in
          let Hmax := fresh "Hmax" in
          pose proof (validated_lamports env a w w' E) as HL;
          pose proof (validated_between env a w w' E) as HB;
          destruct HL as (Hb & _ & Hp);
          destruct HB as (Ho & Hmin & Hmax & _);
          try match goal with
              | H : createInstructionData _ = Throw _ |- _ =>
                  rewrite Hp in H; discriminate H
              | H : createInstructionData _ = Normal ?p |- _ =>
                  rewrite Hp in H; injection H as <-
              end
      end.

Ltac run_leaves env st := run_cases env st; payload_facts.

(** Reading a membership in an explicit log. *)
Ltac read_log H :=
  cbn [In] in H;
  repeat (let t := type of H in
          match t with _ \/ _ => destruct H as [H | H] end);
  first [ contradiction H | discriminate H | (injection H; intros; subst) ].

(** X4. Every run of [handleInvest] notifies exactly once: a warning when
    no wallet is connected, the success when the run succeeds, an error
    otherwise. *)
Theorem X4_one_notification :
  forall (env : Env) (st : State),
    exists l m,
      filter is_notification (log (run_handleInvest env st))
        = [call_addNotification l m] /\
      (l = lvl_warning <-> connected env = None) /\
      (l = lvl_success <-> succeeded (run_handleInvest env st) = true).
Proof.
  intros env st. run_cases env st.
  all: cbn [filter is_notification]; eexists _, _; split; [reflexivity | ].
  all: split; split; intros H; try discriminate H; try reflexivity;
    try assumption.
  all: match goal with
       | H1 : connected ?e = _, H2 : connected ?e = _ |- _ =>
           rewrite H1 in H2; discriminate H2
       end.
Qed.

(** X5. The collaborators are called in the order of the protocol and at
    most once each: connection, balance, blockhash, signature, broadcast,
    confirmation, success notification, deposit; an error or warning
    notification comes last. *)
Theorem X5_protocol_order :
  forall (env : Env) (st : State),
    StronglySorted lt (map rank (log (run_handleInvest env st))).
Proof.
  intros env st. run_cases env st.
  all: cbn [map rank]; repeat (constructor; try lia).
Qed.

(** X6. The only transaction the wallet is asked to sign has the connected
    wallet as fee payer, the blockhash the network has just answered and a
    single instruction for [PROGRAM_ID] over the three accounts (investor,
    admin wallet, system program), whose data are 0 followed by the lamports
    of the amount, least significant byte first; these lamports lie between
    10 and 5 000 000 000 000. *)
Theorem X6_signed_transaction :
  forall (env : Env) (st : State) (tx : Transaction),
    In (call_signTransaction tx) (log (run_handleInvest env st)) ->
    exists wa blockhash height,
      connected env = Some wa /\
      getLatestBlockhash env = Normal (blockhash, height) /\
      tx = invest_transaction wa
             (Zfloor (mul (Number (amount st)) LAMPORTS_PER_SOL)) blockhash /\
      10 <= Zfloor (mul (Number (amount st)) LAMPORTS_PER_SOL) <= 5000000000000.
Proof.
  intros env st tx. run_cases env st.
  all: intros Hin; read_log Hin.
  all: payload_facts.
  all: eexists _, _, _; repeat split; try eassumption; try reflexivity; lia.
Qed.

Lemma X6_signed_transaction_witness :
  In (call_signTransaction
        (invest_transaction investor 1500000000
           (js "EkSnNWid2cvwEVnVx9aBqawnmiCNiDgp3gUdkDPTKN1N")))
     (log (run_handleInvest env_funded (typed "1.5"))) /\
  exists wa blockhash height,
    connected env_funded = Some wa /\
    getLatestBlockhash env_funded = Normal (blockhash, height) /\
    invest_transaction investor 1500000000
      (js "EkSnNWid2cvwEVnVx9aBqawnmiCNiDgp3gUdkDPTKN1N")
      = invest_transaction wa
          (Zfloor (mul (Number (amount (typed "1.5"))) LAMPORTS_PER_SOL)) blockhash /\
    10 <= Zfloor (mul (Number (amount (typed "1.5"))) LAMPORTS_PER_SOL)
       <= 5000000000000.
Proof.
  assert (Hin : In (call_signTransaction
                      (invest_transaction investor 1500000000
                         (js "EkSnNWid2cvwEVnVx9aBqawnmiCNiDgp3gUdkDPTKN1N")))
                   (log (run_handleInvest env_funded (typed "1.5")))).
  { vm_compute. do 3 right. left. reflexivity. }
  split; [exact Hin | ].
  exact (X6_signed_transaction env_funded (typed "1.5") _ Hin).
Defined.

(** X7. The wallet is asked for a signature only while the presale is
    open, with [window.solana] present, and after the network has answered
    the balance query with a balance that is not below the lamports. *)
Theorem X7_signature_after_balance_check :
  forall (env : Env) (st : State) (tx : Transaction),
    In (call_signTransaction tx) (log (run_handleInvest env st)) ->
    isPresaleEnded env = false /\
    window_solana env = true /\
    exists wa balance,
      connected env = Some wa /\
      In (call_getBalance {| toBase58 := wa |} (Normal balance))
         (log (run_handleInvest env st)) /\
      ltb balance (lamports_of st) = false.
Proof.
  intros env st tx. run_cases env st.
  all: intros Hin; read_log Hin.
  all: payload_facts.
  all: split; [assumption | ]; split; [reflexivity | ].
  all: eexists _, _; split; [reflexivity | ]; split; [ | eassumption].
  all: cbn [In]; auto.
Qed.

Lemma X7_signature_after_balance_check_witness :
  isPresaleEnded env_funded = false /\
  window_solana env_funded = true /\
  exists wa balance,
    connected env_funded = Some wa /\
    In (call_getBalance {| toBase58 := wa |} (Normal balance))
       (log (run_handleInvest env_funded (typed "1.5"))) /\
    ltb balance (lamports_of (typed "1.5")) = false.
Proof.
  apply (X7_signature_after_balance_check env_funded (typed "1.5")
           (invest_transaction investor 1500000000
              (js "EkSnNWid2cvwEVnVx9aBqawnmiCNiDgp3gUdkDPTKN1N"))).
  vm_compute. do 3 right. left. reflexivity.
Defined.

(** X8. What is broadcast is what the wallet signed: the bytes given to
    [sendRawTransaction] are those [serialize] returned for the answer of
    [signTransaction], sent with preflight checks and the commitment
    "confirmed". *)
Theorem X8_broadcast_signed_bytes :
  forall (env : Env) (st : State) (raw : list Z) (skip : bool) (commitment : string),
    In (call_sendRawTransaction raw skip commitment)
       (log (run_handleInvest env st)) ->
    skip = false /\ commitment = "confirmed"%string /\
    exists tx signed,
      In (call_signTransaction tx) (log (run_handleInvest env st)) /\
      signTransaction env tx = Normal signed /\
      serialize signed = Normal raw.
Proof.
  intros env st raw skip commitment. run_cases env st.
  all: intros Hin; read_log Hin.
  all: split; [reflexivity | ]; split; [reflexivity | ].
  all: eexists _, _; split; [ | split; eassumption].
  all: cbn [In]; auto 10.
Qed.

Lemma X8_broadcast_signed_bytes_witness :
  false = false /\ "confirmed"%string = "confirmed"%string /\
  exists tx signed,
    In (call_signTransaction tx) (log (run_handleInvest env_funded (typed "1.5"))) /\
    signTransaction env_funded tx = Normal signed /\
    serialize signed = Normal [1; 2; 3].
Proof.
  apply (X8_broadcast_signed_bytes env_funded (typed "1.5") [1; 2; 3] false "confirmed").
  vm_compute. do 4 right. left. reflexivity.
Defined.

(** X9. The confirmation awaited is the one of the transaction sent: the
    signature is the answer of [sendRawTransaction], and the blockhash and
    block height are those [getLatestBlockhash] answered before signing. *)
Theorem X9_confirmation_of_broadcast :
  forall (env : Env) (st : State) (signature blockhash : js_string) (height : number),
    In (call_confirmTransaction signature blockhash height)
       (log (run_handleInvest env st)) ->
    getLatestBlockhash env = Normal (blockhash, height) /\
    exists raw,
      In (call_sendRawTransaction raw false "confirmed")
         (log (run_handleInvest env st)) /\
      sendRawTransaction env raw = Normal signature.
Proof.
  intros env st signature blockhash height. run_cases env st.
  all: intros Hin; read_log Hin.
  all: split; [first [reflexivity | assumption] | ].
  all: eexists; split; [ | eassumption].
  all: cbn [In]; auto 10.
Qed.

Lemma X9_confirmation_of_broadcast_witness :
  getLatestBlockhash env_funded
    = Normal (js "EkSnNWid2cvwEVnVx9aBqawnmiCNiDgp3gUdkDPTKN1N",
              number_of_decimal false 1000 0) /\
  exists raw,
    In (call_sendRawTransaction raw false "confirmed")
       (log (run_handleInvest env_funded (typed "1.5"))) /\
    sendRawTransaction env_funded raw
      = Normal (js "5VERv8NMvzbJMEkV8xnrLkEaWRtSz9CosKDYjCJjBRnb").
Proof.
  apply (X9_confirmation_of_broadcast env_funded (typed "1.5")).
  vm_compute. do 5 right. left. reflexivity.
Defined.

(** X10. A deposit is recorded only in a run that succeeds, after
    [confirmTransaction] has returned, and what is recorded is the number
    of the amount, which lies between the two limits. *)
Theorem X10_deposit_after_confirmation :
  forall (env : Env) (st : State) (x : number),
    In (call_addDeposit x) (log (run_handleInvest env st)) ->
    x = Number (amount st) /\
    leb MIN_INVESTMENT x = true /\
    leb x MAX_INVESTMENT = true /\
    succeeded (run_handleInvest env st) = true /\
    exists signature blockhash height,
      In (call_confirmTransaction signature blockhash height)
         (log (run_handleInvest env st)) /\
      confirmTransaction env signature = Normal tt.
Proof.
  intros env st x. run_cases env st.
  all: intros Hin; read_log Hin.
  all: payload_facts.
  all: repeat (split; [first [reflexivity | assumption] | ]).
  all: eexists _, _, _; split; [cbn [In]; auto 10 | ].
  all: match goal with
       | H : confirmTransaction _ _ = Normal ?u |- _ => destruct u; exact H
       end.
Qed.

Lemma X10_deposit_after_confirmation_witness :
  Number (js "1.5") = Number (amount (typed "1.5")) /\
  leb MIN_INVESTMENT (Number (js "1.5")) = true /\
  leb (Number (js "1.5")) MAX_INVESTMENT = true /\
  succeeded (run_handleInvest env_funded (typed "1.5")) = true /\
  exists signature blockhash height,
    In (call_confirmTransaction signature blockhash height)
       (log (run_handleInvest env_funded (typed "1.5"))) /\
    confirmTransaction env_funded signature = Normal tt.
Proof.
  apply (X10_deposit_after_confirmation env_funded (typed "1.5") (Number (js "1.5"))).
  vm_compute. do 7 right. left. reflexivity.
Defined.

(** Two answers recorded for the same request are the same answer. *)
Ltac same_answer :=
  match goal with
  | H1 : ?t = _, H2 : ?t = _ |- _ =>
      rewrite H1 in H2;
      first [ discriminate H2 | injection H2 as <- | injection H2 as -> ]
  end.

(** X11. What the wallet or the network throws is what the user is told.
    When the balance query, the signature, the broadcast or the
    confirmation throws, the run ends with one error notification: the
    message of the error, preceded by "Transaction failed: " for a
    SendTransactionError, or "Investment failed" when the thrown value is
    no Error.  Nothing succeeds, the amount stays and the processing flag is
    cleared. *)
Theorem X11_failure_is_notified :
  forall (env : Env) (st : State) (e : exn),
    (exists pk, In (call_getBalance pk (Throw e)) (log (run_handleInvest env st))) \/
    (exists tx, In (call_signTransaction tx) (log (run_handleInvest env st)) /\
                signTransaction env tx = Throw e) \/
    (exists raw skip commitment,
        In (call_sendRawTransaction raw skip commitment)
           (log (run_handleInvest env st)) /\
        sendRawTransaction env raw = Throw e) \/
    (exists signature blockhash height,
        In (call_confirmTransaction signature blockhash height)
           (log (run_handleInvest env st)) /\
        confirmTransaction env signature = Throw e) ->
    last (log (run_handleInvest env st)) call_getConnection
      = call_addNotification lvl_error (catch_message e) /\
    succeeded (run_handleInvest env st) = false /\
    amount (state (run_handleInvest env st)) = amount st /\
    isProcessing (state (run_handleInvest env st)) = false.
Proof.
  intros env st e. run_cases env st.
  all: intros [ (pk & Hin)
              | [ (tx & Hin & He)
                | [ (raw & skip & commitment & Hin & He)
                  | (signature & blockhash & height & Hin & He) ] ] ].
  all: read_log Hin.
  all: try same_answer.
  all: repeat split; reflexivity.
Qed.

Lemma X11_failure_is_notified_witness :
  last (log (run_handleInvest env_refused (typed "1.5"))) call_getConnection
    = call_addNotification lvl_error
        [Text "Transaction failed: "; Text "Blockhash not found"] /\
  succeeded (run_handleInvest env_refused (typed "1.5")) = false /\
  amount (state (run_handleInvest env_refused (typed "1.5"))) = js "1.5" /\
  isProcessing (state (run_handleInvest env_refused (typed "1.5"))) = false.
Proof.
  apply (X11_failure_is_notified env_refused (typed "1.5")
           (SendTransactionError (msg "Blockhash not found"))).
  right. right. left. exists [1; 2; 3], false, "confirmed"%string. split.
  - vm_compute. do 4 right. left. reflexivity.
  - reflexivity.
Defined.

(** The error cell after a run with a connected wallet is the one the
    validator wrote. *)
Lemma run_error_cell (env : Env) (st : State) (wa : js_string) :
  connected env = Some wa ->
  error (state (run_handleInvest env st))
    = error (state (snd (validateAmount env (amount st) (fresh st)))).
Proof.
  revert wa. run_cases env st.
  all: intros wa0 Hc; first [discriminate Hc | reflexivity].
Qed.

(** X12. [handleInvest] writes the error cell through the validator only:
    with a wallet connected, the cell after the run holds the validator's
    message for the amount, so it is empty after every run that passed the
    validator, whatever failed afterwards; a failure of the wallet or of
    the network is notified and never shown under the field. *)
Theorem X12_error_cell_from_validator :
  forall (env : Env) (st : State) (wa : js_string),
    connected env = Some wa ->
    error (state (run_handleInvest env st))
      = error (state (snd (validateAmount env (amount st) (fresh st)))) /\
    (fst (validateAmount env (amount st) (fresh st)) = Normal true ->
     error (state (run_handleInvest env st)) = [] /\
     error_paragraph (render env (state (run_handleInvest env st))) = None).
Proof.
  intros env st wa Hc.
  pose proof (run_error_cell env st wa Hc) as He.
  split; [exact He | ]. intros Hv.
  assert (E : error (state (run_handleInvest env st)) = []).
  { rewrite He.
    destruct (validateAmount env (amount st) (fresh st)) as [c w'] eqn:Ev.
    simpl in Hv. subst c.
    apply validateAmount_true in Ev.
    destruct Ev as (_ & _ & _ & _ & _ & ->). reflexivity. }
  split; [exact E | ]. unfold render. cbn [error_paragraph]. rewrite E. reflexivity.
Qed.

Lemma X12_error_cell_from_validator_witness :
  error (state (run_handleInvest env_refused (typed "1.5")))
    = error (state (snd (validateAmount env_refused (amount (typed "1.5"))
                           (fresh (typed "1.5"))))) /\
  error (state (run_handleInvest env_refused (typed "1.5"))) = [] /\
  error_paragraph (render env_refused
                     (state (run_handleInvest env_refused (typed "1.5")))) = None.
Proof.
  destruct (X12_error_cell_from_validator env_refused (typed "1.5") investor)
    as [H1 H2].
  - reflexivity.
  - split; [exact H1 | ]. apply H2. vm_compute. reflexivity.
Defined.

(** X13. When the validator rejects the amount, the run notifies the error
    held by the render the click came from, not the message the validator
    has just written: the only call is that notification, while the error
    cell receives the new message.  A click on the component as it is
    mounted therefore notifies an empty message. *)
Theorem X13_rejection_notifies_render_error :
  forall (env : Env) (st : State) (wa : js_string),
    connected env = Some wa ->
    fst (validateAmount env (amount st) (fresh st)) = Normal false ->
    log (run_handleInvest env st) = [call_addNotification lvl_error (error st)] /\
    error (state (run_handleInvest env st))
      = error (state (snd (validateAmount env (amount st) (fresh st)))) /\
    amount (state (run_handleInvest env st)) = amount st /\
    isProcessing (state (run_handleInvest env st)) = isProcessing st.
Proof.
  intros env st wa Hc Hv. destruct st as [a er ip].
  unfold run_handleInvest, handleInvest, fresh in *. cbn [amount] in *.
  rewrite Hc.
  destruct (validateAmount_shape env a
              {| state := {| amount := a; error := er; isProcessing := ip |};
                 log := [] |}) as (b & m & E).
  rewrite E in Hv. cbn [fst] in Hv. injection Hv as ->.
  cbv [bind]. rewrite E. repeat split; reflexivity.
Qed.

Lemma X13_rejection_notifies_render_error_witness :
  log (run_handleInvest env_funded mounted) = [call_addNotification lvl_error []] /\
  error (state (run_handleInvest env_funded mounted)) = msg_invalid_amount.
Proof.
  destruct (X13_rejection_notifies_render_error env_funded mounted investor)
    as (Hlog & Herr & _).
  - reflexivity.
  - vm_compute. reflexivity.
  - split; [exact Hlog | ]. rewrite Herr. vm_compute. reflexivity.
Defined.

(** X15. The balance test is [balance < lamports] and nothing more: when
    the balance answered is not below the lamports (equal to them, with
    nothing left for a fee, or NaN) the run goes on and asks the network
    for the latest blockhash. *)
Theorem X15_balance_not_below_proceeds :
  forall (env : Env) (st : State) (pk : PublicKey) (balance : number),
    In (call_getBalance pk (Normal balance)) (log (run_handleInvest env st)) ->
    ltb balance (lamports_of st) = false ->
    In (call_getLatestBlockhash "confirmed") (log (run_handleInvest env st)).
Proof.
  intros env st pk balance. run_cases env st.
  all: intros Hin Hlt; read_log Hin.
  all: payload_facts.
  all: try same_answer.
  all: cbn [In]; auto 10.
Qed.

Lemma X15_balance_not_below_proceeds_witness :
  Zfloor (lamports_of (typed "1.5")) = 1500000000 /\
  ltb (number_of_decimal false 1500000000 0) (lamports_of (typed "1.5")) = false /\
  ltb NaN (lamports_of (typed "1.5")) = false /\
  In (call_getLatestBlockhash "confirmed")
     (log (run_handleInvest env_exact (typed "1.5"))).
Proof.
  split; [vm_compute; reflexivity | ].
  split; [vm_compute; reflexivity | ].
  split; [vm_compute; reflexivity | ].
  apply (X15_balance_not_below_proceeds env_exact (typed "1.5")
           {| toBase58 := investor |} (number_of_decimal false 1500000000 0)).
  - vm_compute. right. left. reflexivity.
  - vm_compute. reflexivity.
Defined.

(** A run with a connected wallet warns of nothing and clears the flag it
    found cleared. *)
Lemma run_from_button (env : Env) (st : State) (wa : js_string) :
  connected env = Some wa ->
  isProcessing st = false ->
  (forall m, ~ In (call_addNotification lvl_warning m)
               (log (run_handleInvest env st))) /\
  isProcessing (state (run_handleInvest env st)) = false.
Proof.
  revert wa. run_cases env st.
  all: intros wa0 Hc Hip; try discriminate Hc.
  all: split; [ | first [reflexivity | exact Hip] ].
  all: intros ? Hin; read_log Hin.
Qed.

(** X16. The button guards the handler.  A click while a submission is
    processing or after the presale has ended starts nothing; a click
    without a wallet calls [connectWallet]; [handleInvest] is started only
    with a wallet connected, the presale open and no submission in flight,
    so it never notifies "Please connect your wallet", and when its run is
    over the button is enabled again. *)
Theorem X16_button_guards_handler :
  forall (env : Env) (st : State),
    match click_button env st with
    | click_ignored => isPresaleEnded env = true \/ isProcessing st = true
    | click_connectWallet =>
        connected env = None /\ isPresaleEnded env = false /\
        isProcessing st = false
    | click_handleInvest w =>
        w = run_handleInvest env st /\
        (exists wa, connected env = Some wa) /\
        isPresaleEnded env = false /\ isProcessing st = false /\
        (forall m, ~ In (call_addNotification lvl_warning m) (log w)) /\
        button_disabled (render env (state w)) = false
    end.
Proof.
  intros env st. unfold click_button, render. cbn [button_disabled].
  destruct (isPresaleEnded env) eqn:Ep; [left; reflexivity | ].
  destruct (isProcessing st) eqn:Ei; [right; reflexivity | ].
  cbn [orb].
  destruct (connected env) as [wa | ] eqn:Ec; [ | repeat split; reflexivity].
  destruct (run_from_button env st wa Ec Ei) as [Hw Hf].
  split; [reflexivity | ]. split; [exists wa; reflexivity | ].
  split; [reflexivity | ]. split; [reflexivity | ]. split; [exact Hw | ].
  rewrite Hf. reflexivity.
Qed.

End RunProtocol.
